(** * splinepy microstructures: a shallow embedding

    The development follows three source files:
    - [splinepy/microstructure/_microstructure/microstructure_multi_patch.py]
      (class [_MicrostructureMultiPatch], module [MultiPatch] below),
    - [splinepy/microstructure/microstructure.py]
      (class [Microstructure], module [Microstructure] below),
    - [splinepy/microstructure/tiles/solid_3d.py]
      (class [Solid3D], module [Solid3D] below).

    Python objects are attribute dictionaries ([gmap string value]); a method
    that mutates [self], logs or raises is a function in the monad [M], which
    threads a [world] and keeps every mutation made before an exception. *)

From Stdlib Require Import Floats ZArith.
From stdpp Require Import gmap strings list.

(** ** Python values *)

(** Address of a heap object; also used as the identity that [is] compares. *)
Abbreviation loc := nat.

(** An instance of [splinepy.multipatch.Multipatch]: its identity, its
    [patches] and its [fields]; a field is represented by its own [patches]
    list, whose entries are splines or [None]. *)
Record Multipatch (V : Type) : Type := mkMultipatch {
  mp_id : loc;
  patches : list V;
  fields : list (list V)
}.
Arguments mkMultipatch {V} _ _ _.
Arguments mp_id {V} _.
Arguments patches {V} _.
Arguments fields {V} _.

#[warnings="-register-all"]
Inductive value : Type :=
| VNone
| VBool (b : bool)
| VInt (n : Z)
| VStr (s : string)
| VList (items : list value)
| VFunction (name : string)          (* a [def] or [lambda] *)
| VClass (name : string)             (* a class object, e.g. the builtin [property] *)
| VSpline (name : string)            (* an instance of a [PySpline] subclass *)
| VMultipatch (mp : Multipatch value)
| VSinglePatch (l : loc)             (* a [_MicrostructureSinglePatch] on the heap *)
| VObject (cls name : string).       (* any other instance, e.g. a tile generator *)

(** Attribute dictionary of an instance. *)
Abbreviation attrs := (gmap string value).

(** Keyword arguments forwarded verbatim. *)
Abbreviation kwargs := (list (string * value)).

Inductive exn : Type :=
| AttributeError (attr : string)
| ValueError (msg : string)
| TypeError (msg : string)
| IndexError
| NameError (name : string)
| Raised (what : string).            (* raised by a collaborator outside these files *)

Inductive result (A : Type) : Type :=
| Raise (e : exn)
| Return (a : A).
Arguments Raise {A} _.
Arguments Return {A} _.

Inductive level : Type := LvInfo | LvDebug.

(** The classes the setters test with [isinstance]. *)
Inductive pyclass : Type := cls_int | cls_list | cls_Multipatch | cls_PySpline.

(** Second argument of [isinstance]: a class, a tuple of classes, or [None]
    (which [isinstance] rejects with a [TypeError]). *)
Inductive classinfo : Type :=
| OneClass (c : pyclass)
| ClassTuple (cs : list pyclass)
| NoClass.

Module Py.

Definition is_None (v : value) : bool :=
  match v with VNone => true | _ => false end.

(** [bool] is a subclass of [int]. *)
Definition instance_of (v : value) (c : pyclass) : bool :=
  match c, v with
  | cls_int, (VInt _ | VBool _) => true
  | cls_list, VList _ => true
  | cls_Multipatch, VMultipatch _ => true
  | cls_PySpline, VSpline _ => true
  | _, _ => false
  end.

Definition isinstance (v : value) (Classes : classinfo) : result bool :=
  match Classes with
  | OneClass c => Return (instance_of v c)
  | ClassTuple cs => Return (existsb (instance_of v) cs)
  | NoClass =>
      Raise (TypeError
        "isinstance() arg 2 must be a type, a tuple of types, or a union")
  end.

Definition callable (v : value) : bool :=
  match v with VFunction _ | VClass _ => true | _ => false end.

(** The builtin [property], which is what the bare name [property] denotes
    inside a method body. *)
Definition property : value := VClass "property".

Definition repr_class (c : pyclass) : string :=
  match c with
  | cls_int => "<class 'int'>"
  | cls_list => "<class 'list'>"
  | cls_Multipatch => "<class 'splinepy.multipatch.Multipatch'>"
  | cls_PySpline => "<class 'splinepy.splinepy_core.PySpline'>"
  end.

Fixpoint join (sep : string) (l : list string) : string :=
  match l with
  | [] => ""
  | [x] => x
  | x :: rest => x +:+ sep +:+ join sep rest
  end.

(** [f"{Classes}"]. *)
Definition format_classinfo (Classes : classinfo) : string :=
  match Classes with
  | OneClass c => repr_class c
  | ClassTuple [c] => "(" +:+ repr_class c +:+ ",)"
  | ClassTuple cs => "(" +:+ join ", " (repr_class <$> cs) +:+ ")"
  | NoClass => "None"
  end.

(** [getattr(obj, name, None)], [hasattr(obj, name)] and [obj.name]. *)
Definition getattr_default (obj : attrs) (name : string) : value :=
  default VNone (obj !! name).

Definition hasattr (obj : attrs) (name : string) : bool :=
  bool_decide (is_Some (obj !! name)).

Definition getattr (obj : attrs) (name : string) : result value :=
  match obj !! name with
  | Some v => Return v
  | None => Raise (AttributeError name)
  end.

(** [v.patches]: only a [Multipatch] has the attribute ([None] does not). *)
Definition as_Multipatch (v : value) : result (Multipatch value) :=
  match v with
  | VMultipatch mp => Return mp
  | _ => Raise (AttributeError "patches")
  end.

End Py.

(** ** The world a method runs in *)

Record world : Type := World {
  w_self : gmap string value;                 (* [__dict__] of the multi-patch builder *)
  w_heap : gmap nat (gmap string value);      (* [__dict__] of each single-patch builder *)
  w_next : nat;                               (* identity of the next object created *)
  w_log : list (level * string)               (* what the multi-patch builder logged *)
}.

Definition M (A : Type) : Type := world → world * result A.

Definition ret {A} (a : A) : M A := λ w, (w, Return a).

Definition raise {A} (e : exn) : M A := λ w, (w, Raise e).

Definition bind {A B} (m : M A) (f : A → M B) : M B :=
  λ w, match m w with
       | (w1, Return a) => f a w1
       | (w1, Raise e) => (w1, Raise e)
       end.

Definition lift {A} (r : result A) : M A := λ w, (w, r).

Declare Scope py_scope.
Delimit Scope py_scope with py.
Notation "x <- m ;; k" := (bind m (λ x, k))
  (at level 100, m at next level, right associativity) : py_scope.
Notation "m ;;; k" := (bind m (λ _, k))
  (at level 100, right associativity) : py_scope.

Local Open Scope py_scope.

(** A comprehension whose body may raise but has no other effect. *)
Fixpoint mapR {A B} (f : A → result B) (l : list A) : result (list B) :=
  match l with
  | [] => Return []
  | x :: rest =>
      match f x with
      | Raise e => Raise e
      | Return y =>
          match mapR f rest with
          | Raise e => Raise e
          | Return ys => Return (y :: ys)
          end
      end
  end.

(** A list comprehension or [for] loop whose body has effects: items are
    visited left to right and the first exception ends the loop. *)
Fixpoint mapM {A B} (f : A → M B) (l : list A) : M (list B) :=
  match l with
  | [] => ret []
  | x :: rest =>
      y <- f x ;;
      ys <- mapM f rest ;;
      ret (y :: ys)
  end.

Definition getattr_self (name : string) : M value :=
  λ w, (w, Py.getattr (w_self w) name).

Definition setattr_self (name : string) (v : value) : M unit :=
  λ w, (World (<[name := v]> (w_self w)) (w_heap w) (w_next w) (w_log w),
        Return tt).

Definition log (lv : level) (msg : string) : M unit :=
  λ w, (World (w_self w) (w_heap w) (w_next w) (w_log w ++ [(lv, msg)]),
        Return tt).

Definition _logi : string → M unit := log LvInfo.
Definition _logd : string → M unit := log LvDebug.

(** A new object: its identity is fresh. *)
Definition new_id : M nat :=
  λ w, (World (w_self w) (w_heap w) (S (w_next w)) (w_log w),
        Return (w_next w)).

(** ** [_MicrostructureMultiPatch] *)

Module MultiPatch.

(** What a single-patch [create] hands back: nothing (configuration
    incomplete) or the data of a freshly built [Multipatch]. *)
Inductive single_patch_result : Type :=
| NoResult
| Built (tiles : list value) (sensitivities : list (list value)).

Definition property_names : list string :=
  ["deformation_function"; "tiling"; "microtile";
   "parametrization_function"; "parameter_sensitivity_function"].

(** [_set_property(self, value, Classes, number)].  The test calls
    [callable(property)]: inside the method the name [property] is the
    builtin class, not the argument [value]. *)
Definition _set_property (self : gmap string value) (v : value)
    (Classes : classinfo) (number : nat) : result (gmap string value) :=
  match property_names !! number with
  | None => Raise IndexError
  | Some base =>
      let property_name := base +:+ "s" in
      let can_be_callable := bool_decide (2 < number) in
      let accepted : result bool :=
        if Py.is_None v then Return true
        else
          match (if bool_decide (number = 2) then Return true
                 else Py.isinstance v Classes) with
          | Raise e => Raise e
          | Return true => Return true
          | Return false =>
              Return (can_be_callable && Py.callable Py.property)
          end in
      match accepted with
      | Raise e => Raise e
      | Return false =>
          Raise (ValueError
            ("Argument " +:+ property_name +:+ " must be None"
             +:+ (if can_be_callable then "," else " or")
             +:+ " an instance of " +:+ Py.format_classinfo Classes
             +:+ (if can_be_callable then ", or callable" else "") +:+ "!"))
      | Return true => Return (<["_" +:+ property_name := v]> self)
      end
  end.

(** The five property setters. *)
Definition set_deformation_functions (self : gmap string value) (v : value) :=
  _set_property self v (OneClass cls_Multipatch) 0.
Definition set_tilings (self : gmap string value) (v : value) :=
  _set_property self v (ClassTuple [cls_int; cls_list]) 1.
Definition set_microtiles (self : gmap string value) (v : value) :=
  _set_property self v NoClass 2.
Definition set_parametrization_functions (self : gmap string value) (v : value) :=
  _set_property self v (OneClass cls_list) 3.
Definition set_parameter_sensitivity_functions (self : gmap string value)
    (v : value) :=
  _set_property self v (OneClass cls_list) 4.

(** The five property getters: [getattr(self, "_name", None)]. *)
Definition deformation_functions (self : gmap string value) : value :=
  Py.getattr_default self "_deformation_functions".
Definition tilings (self : gmap string value) : value :=
  Py.getattr_default self "_tilings".
Definition microtiles (self : gmap string value) : value :=
  Py.getattr_default self "_microtiles".
Definition parametrization_functions (self : gmap string value) : value :=
  Py.getattr_default self "_parametrization_functions".
Definition parameter_sensitivity_functions (self : gmap string value) : value :=
  Py.getattr_default self "_parameter_sensitivity_functions".

Definition then_set (r : result (gmap string value))
    (set : gmap string value → value → result (gmap string value))
    (v : value) : result (gmap string value) :=
  match r with
  | Raise e => Raise e
  | Return self => if Py.is_None v then Return self else set self v
  end.

(** [__init__]: an argument that is [None] leaves its attribute unset. *)
Definition __init__ (deformation_functions tilings microtiles
    parametrization_functions : value) : result (gmap string value) :=
  then_set
    (then_set
       (then_set
          (then_set (Return ∅) set_deformation_functions deformation_functions)
          set_tilings tilings)
       set_microtiles microtiles)
    set_parametrization_functions parametrization_functions.

(** [CheckForListAndCreateOtherwise], closed over [number_of_patches]. *)
Definition CheckForListAndCreateOtherwise (number_of_patches : nat)
    (property : value) : list value :=
  match property with
  | VList items =>
      if bool_decide (length items = number_of_patches) then items
      else replicate number_of_patches property
  | _ => replicate number_of_patches property
  end.

Definition is_list_of_length (number_of_patches : nat) (property : value)
    : bool :=
  match property with
  | VList items => bool_decide (length items = number_of_patches)
  | _ => false
  end.

Definition ambiguity_message (name : string) : string :=
  "Possible ambiguity detected: " +:+ name +:+ "s is "
  +:+ "a list, whose length equals the number of "
  +:+ "patches. Each item will be interpreted as a "
  +:+ name +:+ " for a patch. If this is not intended and "
  +:+ "the list shoud instead be repeated for each "
  +:+ "patch, please do this explicitly before setting "
  +:+ "the " +:+ name +:+ "s!".

(** [CheckForAmbiguity], closed over [self] and [number_of_patches]. *)
Definition CheckForAmbiguity (number_of_patches : nat) (property : value)
    (name : string) : M (list value) :=
  (if is_list_of_length number_of_patches property
   then _logd (ambiguity_message name) else ret tt) ;;;
  ret (CheckForListAndCreateOtherwise number_of_patches property).

(** [a is b] on two [Multipatch] objects. *)
Definition is_ (a b : Multipatch value) : bool :=
  bool_decide (mp_id a = mp_id b).

(** The inner comprehension of the [add_fields] argument: one combined
    field, built from [_field] of [_multi_patch]. *)
Definition combined_field (multi_patches : list (Multipatch value))
    (_multi_patch : Multipatch value) (_field : list value) : list value :=
  __multi_patch ← multi_patches;
  (if is_ __multi_patch _multi_patch then _field
   else replicate (length (patches __multi_patch)) VNone).

(** The whole argument handed to [add_fields]. *)
Definition combined_fields (multi_patches : list (Multipatch value))
    : list (list value) :=
  _multi_patch ← multi_patches;
  _field ← fields _multi_patch;
  [combined_field multi_patches _multi_patch _field].

(** [Multipatch.add_fields(fields, field_dim)] appends the given fields. *)
Definition add_fields (mp : Multipatch value) (fs : list (list value))
    : Multipatch value :=
  mkMultipatch (mp_id mp) (patches mp) (fields mp ++ fs).

Section create.

(** The constructor and [create] of [_MicrostructureSinglePatch]
    (microstructure_single_patch.py).  Each works on the attribute
    dictionary of its own builder only. *)
Variable SinglePatch_init :
  value → value → value → value → result (gmap string value).
Variable SinglePatch_create :
  gmap string value → value → value → value → list (string * value) →
  gmap string value * result single_patch_result.

(** [_MicrostructureSinglePatch(patch, tiling, microtile, pf)]. *)
Definition new_single_patch
    (args : value * (value * (value * value))) : M loc :=
  let '(patch, (tiling, (microtile, parametrization_function))) := args in
  d <- lift (SinglePatch_init patch tiling microtile
               parametrization_function) ;;
  l <- new_id ;;
  (λ w, (World (w_self w) (<[l := d]> (w_heap w)) (w_next w) (w_log w),
         Return l)).

(** [microstructure._parameter_sensitivity_function = f]. *)
Definition set_parameter_sensitivity_function (arg : loc * value)
    : M unit :=
  λ w, (World (w_self w)
          (alter (insert "_parameter_sensitivity_function" arg.2) arg.1
             (w_heap w))
          (w_next w) (w_log w),
        Return tt).

(** [microstructure.create(closing_face, knot_span_wise,
    macro_sensitivities, **kwargs)] on the builder at address [l]. *)
Definition single_patch_create (kw : list (string * value))
    (args : loc * (value * (value * value))) : M value :=
  let '(l, (closing_face, (knot_span_wise, macro_sensitivities))) := args in
  λ w,
    let '(d, r) :=
      SinglePatch_create (default ∅ (w_heap w !! l)) closing_face
        knot_span_wise macro_sensitivities kw in
    let w1 := World (w_self w) (<[l := d]> (w_heap w)) (w_next w)
                (w_log w) in
    match r with
    | Raise e => (w1, Raise e)
    | Return NoResult => (w1, Return VNone)
    | Return (Built tiles sensitivities) =>
        (World (w_self w1) (w_heap w1) (S (w_next w1)) (w_log w1),
         Return (VMultipatch (mkMultipatch (w_next w1) tiles sensitivities)))
    end.

(** Lines 330-339 of [create]: from the per-patch results to the
    returned multi-patch.  [_multi_patch.patches] raises for a result
    that is [None].  The [Multipatch] constructor and [add_fields] belong
    to splinepy.multipatch; they are taken to store the lists they are
    given, and the field dimension [multi_patch.dim] is not represented. *)
Definition assemble (macro_sensitivities parameter_sensitivity_functions
    : list value) (multi_patches : list value) : M value :=
  results <- lift (mapR Py.as_Multipatch multi_patches) ;;
  i <- new_id ;;
  let multi_patch := mkMultipatch i (results ≫= patches) [] in
  ret (VMultipatch
         (if negb (bool_decide (macro_sensitivities = []))
             || negb (forallb Py.is_None parameter_sensitivity_functions)
          then add_fields multi_patch (combined_fields results)
          else multi_patch)).

(** Lines 280-329 of [create]: broadcast the configuration, build one
    single-patch builder per outer patch, run them in patch order. *)
Definition create_patches (deformation_functions tilings microtiles
    closing_faces knot_span_wise macro_sensitivities : value)
    (kw : list (string * value)) : M (list value * list value * list value) :=
  outer <- lift (Py.as_Multipatch deformation_functions) ;;
  let number_of_patches := length (patches outer) in
  parametrization_functions <- getattr_self "_parametrization_functions" ;;
  parameter_sensitivity_functions <-
    getattr_self "_parameter_sensitivity_functions" ;;
  tilings <- CheckForAmbiguity number_of_patches tilings "tiling" ;;
  microtiles <- CheckForAmbiguity number_of_patches microtiles "microtile" ;;
  let parametrization_functions :=
    CheckForListAndCreateOtherwise number_of_patches
      parametrization_functions in
  microstructures <-
    mapM new_single_patch
      (zip (patches outer)
         (zip tilings (zip microtiles parametrization_functions))) ;;
  setattr_self "_microstructures" (VList (VSinglePatch <$> microstructures)) ;;;
  parameter_sensitivity_functions <-
    CheckForAmbiguity number_of_patches parameter_sensitivity_functions
      "parameter_sensitivity_function" ;;
  mapM set_parameter_sensitivity_function
    (zip microstructures parameter_sensitivity_functions) ;;;
  let closing_faces :=
    CheckForListAndCreateOtherwise number_of_patches closing_faces in
  let knot_span_wise :=
    CheckForListAndCreateOtherwise number_of_patches knot_span_wise in
  let macro_sensitivities :=
    CheckForListAndCreateOtherwise number_of_patches macro_sensitivities in
  multi_patches <-
    mapM (single_patch_create kw)
      (zip microstructures
         (zip closing_faces (zip knot_span_wise macro_sensitivities))) ;;
  ret (macro_sensitivities, parameter_sensitivity_functions, multi_patches).

(** [create(self, closing_faces, knot_span_wise, macro_sensitivities,
    **kwargs)]. *)
Definition create (closing_faces knot_span_wise macro_sensitivities : value)
    (kw : list (string * value)) : M value :=
  deformation_functions <- getattr_self "_deformation_functions" ;;
  tilings <- getattr_self "_tilings" ;;
  microtiles <- getattr_self "_microtiles" ;;
  if Py.is_None deformation_functions || Py.is_None tilings
     || Py.is_None microtiles
  then
    _logi ("Current information not sufficient, awaiting further "
           +:+ "assignments!") ;;;
    ret VNone
  else
    built <-
      create_patches deformation_functions tilings microtiles closing_faces
        knot_span_wise macro_sensitivities kw ;;
    let '(macro_sensitivities, parameter_sensitivity_functions,
          multi_patches) := built in
    assemble macro_sensitivities parameter_sensitivity_functions
      multi_patches.

(** Lines 365-379 of [show]: tile previews and the vedo window. *)
Variable gus_show : value → list (string * value) → M value.

(** [self.create] called with the keyword arguments of [show]: a keyword
    that names a parameter of [create] binds it, the others stay in the
    keyword dictionary. *)
Fixpoint kw_get (name : string) (kw : list (string * value)) : value :=
  match kw with
  | [] => VNone
  | (k, v) :: rest => if String.eqb k name then v else kw_get name rest
  end.

Definition kw_rest (kw : list (string * value)) : list (string * value) :=
  filter (λ p, p.1 ∉ ["closing_faces"; "knot_span_wise";
                       "macro_sensitivities"]) kw.

(** [show(self, use_saved, **kwargs)]. *)
Definition show (use_saved : bool) (kw : list (string * value)) : M value :=
  microstructure <-
    (if use_saved then
       saved <- (λ w, (w, Return (Py.hasattr (w_self w)
                                    "_microstructure_created"))) ;;
       if saved : bool then getattr_self "_microstructure_created"
       else raise (ValueError "No previously created microstructure saved!")
     else
       create (kw_get "closing_faces" kw) (kw_get "knot_span_wise" kw)
         (kw_get "macro_sensitivities" kw) (kw_rest kw)) ;;
  gus_show microstructure kw.

End create.

End MultiPatch.

(** ** [Microstructure], the facade *)

Module Microstructure.

Inductive builder_class : Type :=
| _MicrostructureSinglePatch
| _MicrostructureMultiPatch.

(** The builder the facade forwards to: its class and its [__dict__]. *)
Record delegate : Type := Delegate {
  d_class : builder_class;
  d_dict : gmap string value
}.

(** [__dict__] of an initialised facade. *)
Record facade : Type := Facade {
  _is_single_patch : bool;
  _microstructure : delegate
}.

Definition property_names : list string :=
  ["deformation_function"; "tiling"; "microtile";
   "parametrization_function"; "parameter_sensitivity_function"].

Section facade.

(** The constructor of [_MicrostructureSinglePatch]
    (microstructure_single_patch.py). *)
Variable SinglePatch_init :
  value → value → value → value → result (gmap string value).

(** [str(value)] inside an f-string. *)
Variable format_value : value → string.

(** [(_MicrostructureSinglePatch if self._is_single_patch else
    _MicrostructureMultiPatch)(deformation_function, tiling, microtile,
    parametrization_function)]. *)
Definition new_delegate (is_single_patch : bool) (deformation_function
    tiling microtile parametrization_function : value) : result delegate :=
  if is_single_patch then
    match SinglePatch_init deformation_function tiling microtile
            parametrization_function with
    | Raise e => Raise e
    | Return d => Return (Delegate _MicrostructureSinglePatch d)
    end
  else
    match MultiPatch.__init__ deformation_function tiling microtile
            parametrization_function with
    | Raise e => Raise e
    | Return d => Return (Delegate _MicrostructureMultiPatch d)
    end.

(** [self.__init__(...)] on an initialised facade: [_is_single_patch] is
    assigned before the builder is constructed, so it is updated even
    when the constructor raises and the old builder stays. *)
Definition __init__ (self : facade) (deformation_function tiling microtile
    parametrization_function : value) : facade * result unit :=
  let is_single_patch :=
    Py.instance_of deformation_function cls_PySpline in
  match new_delegate is_single_patch deformation_function tiling microtile
          parametrization_function with
  | Raise e => (Facade is_single_patch (_microstructure self), Raise e)
  | Return d => (Facade is_single_patch d, Return tt)
  end.

(** [Microstructure(deformation_function, tiling, microtile,
    parametrization_function)]: no object results when [__init__]
    raises. *)
Definition new (deformation_function tiling microtile
    parametrization_function : value) : result facade :=
  let is_single_patch :=
    Py.instance_of deformation_function cls_PySpline in
  match new_delegate is_single_patch deformation_function tiling microtile
          parametrization_function with
  | Raise e => Raise e
  | Return d => Return (Facade is_single_patch d)
  end.

Definition _get_property_name (self : facade) (number : nat)
    : result string :=
  match property_names !! number with
  | None => Raise IndexError
  | Some base =>
      Return ("_" +:+ base +:+ (if _is_single_patch self then "" else "s"))
  end.

(** [_get_property(self, number, message)]: the value read and the
    messages logged. *)
Definition _get_property (self : facade) (number : nat)
    (message : option string) : list (level * string) * result value :=
  match _get_property_name self number with
  | Raise e => ([], Raise e)
  | Return attribute_name =>
      if Py.hasattr (d_dict (_microstructure self)) attribute_name
      then ([], Py.getattr (d_dict (_microstructure self)) attribute_name)
      else (match message with
            | Some m => [(LvInfo, m)]
            | None => []
            end, Return VNone)
  end.

(** [_set_property(self, number, value, message)] writes the builder's
    private attribute directly. *)
Definition _set_property (self : facade) (number : nat) (v : value)
    (message : option string)
    : facade * list (level * string) * result unit :=
  match _get_property_name self number with
  | Raise e => (self, [], Raise e)
  | Return attribute_name =>
      (Facade (_is_single_patch self)
         (Delegate (d_class (_microstructure self))
            (<[attribute_name := v]> (d_dict (_microstructure self)))),
       match message with
       | Some m => [(LvDebug, m)]
       | None => []
       end, Return tt)
  end.

(** The property getters. *)
Definition deformation_function (self : facade) :=
  _get_property self 0 None.
Definition tiling (self : facade) := _get_property self 1 None.
Definition microtile (self : facade) :=
  _get_property self 2
    (Some ("microtile is empty. "
           +:+ "Please check splinepy.microstructure.tiles.show() for "
           +:+ "predefined tile collections.")).
Definition parametrization_function (self : facade) :=
  _get_property self 3 None.
Definition parameter_sensitivity_function (self : facade) :=
  _get_property self 4 None.

(** The [deformation_function] setter. *)
Definition set_deformation_function (self : facade)
    (deformation_function : value) : facade * result unit :=
  let get_attribute := λ number, (_get_property self number None).2 in
  match get_attribute 1 with
  | Raise e => (self, Raise e)
  | Return tiling =>
      match get_attribute 2 with
      | Raise e => (self, Raise e)
      | Return microtile =>
          match get_attribute 3 with
          | Raise e => (self, Raise e)
          | Return parametrization_function =>
              __init__ self deformation_function tiling microtile
                parametrization_function
          end
      end
  end.

(** The other setters; the message of the [tiling] setter is formatted
    before the assignment. *)
Definition set_tiling (self : facade) (v : value) :=
  match (tiling self).2 with
  | Raise e => (self, [], Raise e)
  | Return old =>
      _set_property self 1 v
        (Some ("Successfully set " +:+ "tiling to : " +:+ format_value old))
  end.
Definition set_microtile (self : facade) (v : value) :=
  _set_property self 2 v None.
Definition set_parametrization_function (self : facade) (v : value) :=
  _set_property self 3 v None.
Definition set_parameter_sensitivity_function (self : facade) (v : value) :=
  _set_property self 4 v None.

End facade.

End Microstructure.

(** ** [Solid3D], the cubic tile *)

Module Solid3D.

Definition dim : Z := 3.
Definition _dim : Z := 3.
Definition _para_dim : Z := 3.
Definition _evaluation_points : list (list float) := [[]].
Definition _n_info_per_eval_point : Z := 0.

(** A [splinepy.bezier.Bezier] as constructed here. *)
Record Bezier : Type := mkBezier {
  degrees : list Z;
  control_points : list (list float)
}.

(** Where a bare name is found. *)
Inductive binding : Type := InLocals | InGlobals | InBuiltins.

(** The names bound at module level by the three [import] statements and
    the [class] statement. *)
Definition module_globals : gset string :=
  {["_np"; "_Bezier"; "_TileBase"; "Solid3D"]}.

(** The names bound in the body of [_closing_tile]: its parameters. *)
Definition _closing_tile_locals : gset string :=
  {["self"; "parameters"; "parameter_sensitivities"; "closure"; "kwargs"]}.

(** [numpy] addition of a row vector to every row of a matrix. *)
Definition np_add (a : list (list float)) (row : list float)
    : list (list float) :=
  (λ r, zip_with PrimFloat.add r row) <$> a.

Definition center_points (v_one_half : float) : list (list float) :=
  [ [(- v_one_half)%float; (- v_one_half)%float; (- v_one_half)%float];
    [v_one_half; (- v_one_half)%float; (- v_one_half)%float];
    [(- v_one_half)%float; v_one_half; (- v_one_half)%float];
    [v_one_half; v_one_half; (- v_one_half)%float];
    [(- v_one_half)%float; (- v_one_half)%float; v_one_half];
    [v_one_half; (- v_one_half)%float; v_one_half];
    [(- v_one_half)%float; v_one_half; v_one_half];
    [v_one_half; v_one_half; v_one_half] ].

(** One pass of the loop over [i_derivative], on [(splines, derivatives)]. *)
Definition tile_pass (state : list Bezier * list (list Bezier))
    (i_derivative : nat) : list Bezier * list (list Bezier) :=
  let v_one_half := if bool_decide (i_derivative = 0) then 0.5%float
                    else 0.0%float in
  let center := replicate 3 v_one_half in
  let spline_list :=
    [] ++ [mkBezier [1; 1; 1]%Z
              (np_add (center_points v_one_half) center)] in
  if bool_decide (i_derivative = 0) then (spline_list, state.2)
  else (state.1, state.2 ++ [spline_list]).

Section names.

(** The names of the [builtins] module, and what calling the object a
    resolved name is bound to, with the three arguments of line 49,
    returns. *)
Variable builtins : gset string.
Variable call_bound :
  binding → string → value → value → value →
  result (list Bezier * list (list Bezier)).

(** Resolution of a bare name in a method body: locals, module globals,
    builtins.  The class body is not a scope of its methods. *)
Definition lookup_name (locals : gset string) (name : string)
    : result binding :=
  if bool_decide (name ∈ locals) then Return InLocals
  else if bool_decide (name ∈ module_globals) then Return InGlobals
  else if bool_decide (name ∈ builtins) then Return InBuiltins
  else Raise (NameError name).

(** [_closing_tile(self, parameters, parameter_sensitivities, closure,
    **kwargs)]: the name [create_tile] is evaluated first. *)
Definition _closing_tile (parameters parameter_sensitivities closure
    : value) (kw : list (string * value))
    : result (list Bezier * list (list Bezier)) :=
  match lookup_name _closing_tile_locals "create_tile" with
  | Raise e => Raise e
  | Return found =>
      call_bound found "create_tile" parameters parameter_sensitivities
        VNone
  end.

(** [create_tile(self, parameters, parameter_sensitivities, closure,
    **kwargs)]. *)
Definition create_tile (parameters parameter_sensitivities closure : value)
    (kw : list (string * value))
    : result (list Bezier * list (list Bezier)) :=
  if negb (Py.is_None closure) then _closing_tile VNone VNone VNone kw
  else Return (foldl tile_pass ([], []) (seq 0 3)).

End names.

End Solid3D.

(** ** Concrete inputs

    A small stand-in for the single-patch builder, used only to run the
    definitions above on explicit inputs: its constructor stores its four
    arguments, and its [create] returns as many tiles as the integer
    [_tiling] says, plus one sensitivity field when a parameter sensitivity
    function is set. *)

Module Sample.

Definition SinglePatch_init (patch tiling microtile
    parametrization_function : value) : result (gmap string value) :=
  Return (<["_deformation_function" := patch]>
          (<["_tiling" := tiling]>
           (<["_microtile" := microtile]>
            (<["_parametrization_function" := parametrization_function]>
             ∅)))).

Definition SinglePatch_create (d : gmap string value) (closing_face
    knot_span_wise macro_sensitivities : value) (kw : list (string * value))
    : gmap string value * result MultiPatch.single_patch_result :=
  match d !! "_tiling", d !! "_deformation_function" with
  | Some (VInt n), Some (VSpline p) =>
      (<["_microstructure_created" := VBool true]> d,
       Return (MultiPatch.Built
                 ((λ i, VSpline (p +:+ String (Ascii.ascii_of_nat (48 + i)) ""))
                    <$> seq 0 (Z.to_nat n))
                 (match d !! "_parameter_sensitivity_function" with
                  | Some (VFunction f) =>
                      [replicate (Z.to_nat n) (VSpline ("d" +:+ p))]
                  | _ => []
                  end)))
  | _, _ => (d, Return MultiPatch.NoResult)
  end.

Definition gus_show (microstructure : value) (kw : list (string * value))
    : M value :=
  ret (VObject "vedo.Plotter" "plt").

Definition format_value (v : value) : string :=
  match v with
  | VNone => "None"
  | VInt n => if bool_decide (n = 2%Z) then "2" else "<int>"
  | _ => "<object>"
  end.

Definition two_patches : value :=
  VMultipatch (mkMultipatch 0 [VSpline "a"; VSpline "b"] []).

Definition tile : value := VObject "Solid3D" "tile".

Definition empty_world : world := World ∅ ∅ 1 [].

(** The builder after
    [_MicrostructureMultiPatch(two_patches, tilings, tile)] followed by
    the assignment of [parametrization_functions = None] and of
    [parameter_sensitivity_functions = psf]. *)
Definition configured (tilings psf : value) : world :=
  World (<["_deformation_functions" := two_patches]>
         (<["_tilings" := tilings]>
          (<["_microtiles" := tile]>
           (<["_parametrization_functions" := VNone]>
            (<["_parameter_sensitivity_functions" := psf]> ∅)))))
    ∅ 1 [].

Definition create := MultiPatch.create SinglePatch_init SinglePatch_create.
Definition show :=
  MultiPatch.show SinglePatch_init SinglePatch_create gus_show.

(** A two-patch builder with one tiling per patch and one sensitivity
    function for both, and the multi-patch [create] returns on it. *)
Definition per_patch_world : world :=
  configured (VList [VInt 1; VInt 2]) (VFunction "f").

Definition per_patch_microstructure : Multipatch value :=
  mkMultipatch 5 [VSpline "a0"; VSpline "b0"; VSpline "b1"]
    [[VSpline "da"; VNone; VNone]; [VNone; VSpline "db"; VSpline "db"]].

(** The same builder with a sensitivity function for the first patch
    only. *)
Definition one_sensitivity_world : world :=
  configured (VList [VInt 1; VInt 2]) (VList [VFunction "f"; VNone]).

(** The same builder with no tiling for the first patch, and a builder over
    a multi-patch without patches. *)
Definition missing_tiling_world : world :=
  configured (VList [VNone; VInt 2]) VNone.

Definition no_patches : Multipatch value := mkMultipatch 0 [] [].

Definition no_patches_world : world :=
  World (<["_deformation_functions" := VMultipatch no_patches]>
         (<["_tilings" := VInt 2]>
          (<["_microtiles" := tile]>
           (<["_parametrization_functions" := VNone]>
            (<["_parameter_sensitivity_functions" := VNone]> ∅)))))
    ∅ 1 [].

(** The builder as the constructor leaves it when given the three required
    arguments only. *)
Definition required_only_world : world :=
  World (<["_microtiles" := tile]>
         (<["_tilings" := VInt 2]>
          (<["_deformation_functions" := two_patches]> ∅)))
    ∅ 1 [].

(** A builder whose tilings were assigned [None]. *)
Definition tilings_None_world : world :=
  World (<["_tilings" := VNone]>
         (<["_microtiles" := tile]>
          (<["_deformation_functions" := two_patches]> ∅)))
    ∅ 1 [].

(** A facade over a single-patch builder, as built by
    [Microstructure(s, 2, tile)] with the stand-in constructor. *)
Definition single_patch_facade : Microstructure.facade :=
  Microstructure.Facade true
    (Microstructure.Delegate Microstructure._MicrostructureSinglePatch
       (<["_deformation_function" := VSpline "s"]>
        (<["_tiling" := VInt 2]>
         (<["_microtile" := tile]>
          (<["_parametrization_function" := VNone]> ∅))))).

(** A stand-in constructor that, unlike [SinglePatch_init], checks its
    tiling. *)
Definition SinglePatch_init_checked (patch tiling microtile
    parametrization_function : value) : result (gmap string value) :=
  if Py.instance_of tiling cls_int then
    SinglePatch_init patch tiling microtile parametrization_function
  else Raise (ValueError "tiling must be an int").

(** A two-patch builder whose second tiling is a string. *)
Definition bad_tiling_world : world :=
  configured (VList [VInt 1; VStr "two"]) VNone.

(** A facade over a multi-patch builder whose five properties are all set,
    as left by [Microstructure(two_patches, 2, tile, p)] followed by the
    assignment [parameter_sensitivity_function = f]. *)
Definition facade_with_sensitivity : Microstructure.facade :=
  Microstructure.Facade false
    (Microstructure.Delegate Microstructure._MicrostructureMultiPatch
       (<["_parameter_sensitivity_functions" := VFunction "f"]>
        (<["_parametrization_functions" := VFunction "p"]>
         (<["_microtiles" := tile]>
          (<["_tilings" := VInt 2]>
           (<["_deformation_functions" := two_patches]> ∅)))))).

Definition three_patches : value :=
  VMultipatch (mkMultipatch 7 [VSpline "c"; VSpline "d"; VSpline "e"] []).

(** The names Python binds in [builtins] that this module would see; the
    list only matters through the absence of [create_tile]. *)
Definition builtins : gset string :=
  {["range"; "len"; "isinstance"; "callable"; "property"; "getattr";
    "setattr"; "hasattr"; "zip"; "all"; "enumerate"; "str"; "int"; "list";
    "ValueError"; "NameError"; "AttributeError"]}.

Definition call_bound (found : Solid3D.binding) (name : string)
    (a b c : value)
    : result (list Solid3D.Bezier * list (list Solid3D.Bezier)) :=
  Raise (TypeError "object is not callable").

End Sample.

(** * Vocabulary of the statements *)

(** A computation [preserves R] when [R] relates the world before to the
    world after, whether it returns or raises. *)
Definition preserves {A} (R : relation world) (m : M A) : Prop :=
  ∀ w w' r, m w = (w', r) → R w w'.

(** Two worlds agree on an observation. *)
Definition same_on {X} (f : world → X) : relation world :=
  λ w w', f w' = f w.

(** Object identities are only ever handed out, never reused. *)
Definition next_le : relation world := λ w w', w_next w ≤ w_next w'.

(** The log is only ever appended to. *)
Definition log_grows : relation world :=
  λ w w', w_log w `prefix_of` w_log w'.

Ltac papply lem :=
  apply lem; try (match goal with |- PreOrder _ => apply _ end).

Ltac step_world :=
  let w := fresh "w" in
  let w' := fresh "w'" in
  let r := fresh "r" in
  intros w w' r;
  repeat match goal with
         | |- context [let '(_, _) := ?x in _] => destruct x as [? ?]
         | |- context [match ?x with _ => _ end] => destruct x
         end;
  intros [= <- ?]; unfold same_on, next_le; simpl; try done; try lia.

(** The diagnostic [CheckForAmbiguity] emits for a property. *)
Definition diagnostics (number_of_patches : nat) (property : value)
    (name : string) : list (level * string) :=
  if MultiPatch.is_list_of_length number_of_patches property
  then [(LvDebug, MultiPatch.ambiguity_message name)] else [].

(** The attributes [create] reads from the builder. *)
Definition configuration_of (w : world) (outer : Multipatch value)
    (tilings microtiles pfs psfs : value) : Prop :=
  w_self w !! "_deformation_functions" = Some (VMultipatch outer)
  ∧ w_self w !! "_tilings" = Some tilings
  ∧ w_self w !! "_microtiles" = Some microtiles
  ∧ w_self w !! "_parametrization_functions" = Some pfs
  ∧ w_self w !! "_parameter_sensitivity_functions" = Some psfs.

Section per_patch.

Import MultiPatch.

Variable SinglePatch_init :
  value → value → value → value → result (gmap string value).
Variable SinglePatch_create :
  gmap string value → value → value → value → list (string * value) →
  gmap string value * result single_patch_result.

(** The dictionary the constructor returns for one slice of the
    configuration. *)
Definition init_of (arg : value * (value * (value * value)))
    : result (gmap string value) :=
  SinglePatch_init arg.1 arg.2.1 arg.2.2.1 arg.2.2.2.

(** What [create] of a builder with dictionary [d] returns. *)
Definition outcome (kw : list (string * value)) (d : gmap string value)
    (a : value * (value * value)) : result single_patch_result :=
  (SinglePatch_create d a.1 a.2.1 a.2.2 kw).2.

(** The value a call evaluates to, given what the builder returned: [None],
    or a new [Multipatch] holding the tiles and the sensitivity fields. *)
Definition returned (r : result single_patch_result) (v : value) : Prop :=
  match r with
  | Raise _ => False
  | Return NoResult => v = VNone
  | Return (Built tiles sensitivities) =>
      ∃ i, v = VMultipatch (mkMultipatch i tiles sensitivities)
  end.

(** What the single-patch builder of one outer patch returns: it is
    constructed from its slice of the configuration, receives its
    sensitivity function, and is asked to create. *)
Definition single_patch_run (kw : list (string * value))
    (patch tiling microtile parametrization_function
     parameter_sensitivity_function closing_face knot_span_wise
     macro_sensitivities : value) : result single_patch_result :=
  match SinglePatch_init patch tiling microtile parametrization_function with
  | Raise e => Raise e
  | Return d =>
      (SinglePatch_create
         (<["_parameter_sensitivity_function" := parameter_sensitivity_function]> d)
         closing_face knot_span_wise macro_sensitivities kw).2
  end.

(** The per-patch results of a build over [N] outer patches: result [k]
    is what the builder of patch [k] returned on entry [k] of each
    broadcast property. *)
Definition per_patch_results (kw : list (string * value)) (outer : Multipatch value)
    (tilings microtiles pfs psfs cf ksw ms : value)
    (results : list (Multipatch value)) : Prop :=
  let N := length (patches outer) in
  length results = N
  ∧ ∀ k res, results !! k = Some res →
      ∃ patch t m pf psf cf_k ksw_k ms_k,
        patches outer !! k = Some patch
        ∧ CheckForListAndCreateOtherwise N tilings !! k = Some t
        ∧ CheckForListAndCreateOtherwise N microtiles !! k = Some m
        ∧ CheckForListAndCreateOtherwise N pfs !! k = Some pf
        ∧ CheckForListAndCreateOtherwise N psfs !! k = Some psf
        ∧ CheckForListAndCreateOtherwise N cf !! k = Some cf_k
        ∧ CheckForListAndCreateOtherwise N ksw !! k = Some ksw_k
        ∧ CheckForListAndCreateOtherwise N ms !! k = Some ms_k
        ∧ single_patch_run kw patch t m pf psf cf_k ksw_k ms_k
          = Return (Built (patches res) (fields res)).

(** The same for what the builders returned, a result or nothing: entry
    [k] of [rs] is what the builder of patch [k] returned. *)
Definition per_patch_outcomes (kw : list (string * value))
    (outer : Multipatch value)
    (tilings microtiles pfs psfs cf ksw ms : value)
    (rs : list single_patch_result) : Prop :=
  let N := length (patches outer) in
  length rs = N
  ∧ ∀ k patch t m pf psf cf_k ksw_k ms_k,
      patches outer !! k = Some patch →
      CheckForListAndCreateOtherwise N tilings !! k = Some t →
      CheckForListAndCreateOtherwise N microtiles !! k = Some m →
      CheckForListAndCreateOtherwise N pfs !! k = Some pf →
      CheckForListAndCreateOtherwise N psfs !! k = Some psf →
      CheckForListAndCreateOtherwise N cf !! k = Some cf_k →
      CheckForListAndCreateOtherwise N ksw !! k = Some ksw_k →
      CheckForListAndCreateOtherwise N ms !! k = Some ms_k →
      ∃ r, rs !! k = Some r
           ∧ single_patch_run kw patch t m pf psf cf_k ksw_k ms_k = Return r.

End per_patch.

(** The values the calls of lines 324-329 evaluate to, given what each
    builder returned: identities are handed out in call order, one for each
    [Multipatch] returned. *)
Fixpoint values_from (n : nat) (rs : list MultiPatch.single_patch_result)
    : list value :=
  match rs with
  | [] => []
  | MultiPatch.NoResult :: rest => VNone :: values_from n rest
  | MultiPatch.Built tiles sensitivities :: rest =>
      VMultipatch (mkMultipatch n tiles sensitivities)
      :: values_from (S n) rest
  end.

(** The [Multipatch] objects among them. *)
Fixpoint objects_from (n : nat) (rs : list MultiPatch.single_patch_result)
    : list (Multipatch value) :=
  match rs with
  | [] => []
  | MultiPatch.NoResult :: rest => objects_from n rest
  | MultiPatch.Built tiles sensitivities :: rest =>
      mkMultipatch n tiles sensitivities :: objects_from (S n) rest
  end.

(** Modelled from the spec: the result of [_MicrostructureSinglePatch.create],
    whose module (microstructure_single_patch.py) is not among the sources.
    A result is "an ordered collection of output geometry patches plus an
    optional parallel collection of sensitivity fields", "each field itself
    an ordered collection aligned index-for-index with the output patches":
    every field of a result is as long as its list of tiles. *)
Definition aligned (r : MultiPatch.single_patch_result) : Prop :=
  match r with
  | MultiPatch.NoResult => True
  | MultiPatch.Built tiles sensitivities =>
      Forall (λ f, length f = length tiles) sensitivities
  end.

(** The flag of the facade names the class of the builder it holds, as it
    does after the constructor and after every assignment that returns. *)
Definition consistent (self : Microstructure.facade) : Prop :=
  Microstructure._is_single_patch self
  = match Microstructure.d_class (Microstructure._microstructure self) with
    | Microstructure._MicrostructureSinglePatch => true
    | Microstructure._MicrostructureMultiPatch => false
    end.

(** The value a property was last set to on the builder the facade holds:
    its private attribute, named in the singular on a single-patch builder
    and in the plural on a multi-patch builder, [None] when it was never
    set. *)
Definition stored (self : Microstructure.facade) (number : nat) : value :=
  match Microstructure.property_names !! number with
  | None => VNone
  | Some base =>
      Py.getattr_default
        (Microstructure.d_dict (Microstructure._microstructure self))
        ("_" +:+ base
         +:+ match Microstructure.d_class
                     (Microstructure._microstructure self) with
             | Microstructure._MicrostructureSinglePatch => ""
             | Microstructure._MicrostructureMultiPatch => "s"
             end)
  end.

(** Where the tiles of patch [k] start in the combined collection. *)
Definition offset (results : list (Multipatch value)) (k : nat) : nat :=
  length (take k results ≫= patches).

(** A per-patch field moved into the combined collection: [None] before
    the range of patch [k], the field itself, [None] after. *)
Definition padded (results : list (Multipatch value)) (k : nat)
    (f : list value) : list value :=
  replicate (offset results k) VNone ++ f
  ++ replicate (length (results ≫= patches) - offset results (S k)) VNone.

(** The corners of the unit cube, first coordinate running fastest. *)
Definition unit_cube_corners : list (list float) :=
  [ [0; 0; 0]; [1; 0; 0]; [0; 1; 0]; [1; 1; 0];
    [0; 0; 1]; [1; 0; 1]; [0; 1; 1]; [1; 1; 1] ]%float.

Definition zero_points : list (list float) :=
  replicate 8 (replicate 3 0%float).

(** * Properties *)

(** ** Running the monad *)

Section monad_facts.

Context {A B : Type}.

Lemma bind_Return (m : M A) (f : A → M B) w w' b :
  bind m f w = (w', Return b) →
  ∃ a w1, m w = (w1, Return a) ∧ f a w1 = (w', Return b).
Proof.
  unfold bind. destruct (m w) as [w1 [e|a]]; [discriminate|]. eauto.
Qed.

Lemma bind_run (m : M A) (f : A → M B) w w1 a :
  m w = (w1, Return a) → bind m f w = f a w1.
Proof. unfold bind. by intros ->. Qed.

Lemma bind_run_Raise (m : M A) (f : A → M B) w w1 e :
  m w = (w1, Raise e) → bind m f w = (w1, Raise e).
Proof. unfold bind. by intros ->. Qed.

Lemma lift_Return (r : result A) w w' a :
  lift r w = (w', Return a) → w' = w ∧ r = Return a.
Proof. unfold lift. by intros [= -> ->]. Qed.

End monad_facts.

Section preserves.

Context (R : relation world) `{!PreOrder R}.

Lemma preserves_ret {A} (a : A) : preserves R (ret a).
Proof. intros w w' r [= <- _]. reflexivity. Qed.

Lemma preserves_raise {A} e : preserves R (@raise A e).
Proof. intros w w' r [= <- _]. reflexivity. Qed.

Lemma preserves_lift {A} (x : result A) : preserves R (lift x).
Proof. intros w w' r [= <- _]. reflexivity. Qed.

Lemma preserves_bind {A B} (m : M A) (f : A → M B) :
  preserves R m → (∀ a, preserves R (f a)) → preserves R (bind m f).
Proof.
  intros Hm Hf w w' r. unfold bind.
  destruct (m w) as [w1 [e|a]] eqn:E; intros H.
  - injection H as <- _. by eapply Hm.
  - etrans; [by eapply Hm | by eapply Hf].
Qed.

Lemma preserves_mapM {A B} (f : A → M B) (l : list A) :
  (∀ a, preserves R (f a)) → preserves R (mapM f l).
Proof.
  intros Hf. induction l as [|x l IH]; simpl.
  - apply preserves_ret.
  - apply preserves_bind; [done|]. intros y.
    apply preserves_bind; [done|]. intros ys. apply preserves_ret.
Qed.

Lemma preserves_if {A} (b : bool) (m1 m2 : M A) :
  preserves R m1 → preserves R m2 → preserves R (if b then m1 else m2).
Proof. by destruct b. Qed.

End preserves.

(** ** [CheckForListAndCreateOtherwise] *)

Section broadcast.

Import MultiPatch.

Lemma is_list_of_length_spec N property :
  is_list_of_length N property = true ↔
  ∃ items, property = VList items ∧ length items = N.
Proof.
  unfold is_list_of_length. split.
  - destruct property; try done. intros ?%bool_decide_eq_true. eauto.
  - intros (items & -> & H). by apply bool_decide_eq_true.
Qed.

Lemma broadcast_list N items :
  length items = N → CheckForListAndCreateOtherwise N (VList items) = items.
Proof. intros H. simpl. by rewrite bool_decide_eq_true_2. Qed.

Lemma broadcast_other N property :
  is_list_of_length N property = false →
  CheckForListAndCreateOtherwise N property = replicate N property.
Proof.
  unfold is_list_of_length, CheckForListAndCreateOtherwise.
  destruct property; try done. by intros ->.
Qed.

Lemma broadcast_length N property :
  length (CheckForListAndCreateOtherwise N property) = N.
Proof.
  destruct (is_list_of_length N property) eqn:E.
  - apply is_list_of_length_spec in E as (items & -> & H).
    by rewrite broadcast_list.
  - rewrite broadcast_other by done. apply length_replicate.
Qed.

(** C3.  For every patch count [N] (in particular every [N >= 1]) and
    every value, the broadcast returns a list of length exactly [N]; a
    list of length [N] is returned unchanged, every other value -- a list
    of another length, [None] -- is replicated [N] times, and [None]
    becomes [N] times [None]. *)
Theorem CheckForListAndCreateOtherwise_broadcast (N : nat) (property : value) :
  length (CheckForListAndCreateOtherwise N property) = N
  ∧ (∀ items, property = VList items → length items = N →
       CheckForListAndCreateOtherwise N property = items)
  ∧ ((∀ items, property = VList items → length items ≠ N) →
       CheckForListAndCreateOtherwise N property = replicate N property)
  ∧ CheckForListAndCreateOtherwise N VNone = replicate N VNone.
Proof.
  split_and!.
  - apply broadcast_length.
  - intros items -> H. by apply broadcast_list.
  - intros H. apply broadcast_other.
    destruct (is_list_of_length N property) eqn:E; [|done].
    apply is_list_of_length_spec in E as (items & -> & Hlen).
    by destruct (H items).
  - done.
Qed.

End broadcast.

(** ** The property setters of [_MicrostructureMultiPatch] *)

Section setters.

Import MultiPatch.

Lemma set_property_None self Classes number base :
  property_names !! number = Some base →
  _set_property self VNone Classes number
  = Return (<["_" +:+ base +:+ "s" := VNone]> self).
Proof. unfold _set_property. by intros ->. Qed.

(** [deformation_functions] is checked at the assignment. *)
Lemma set_deformation_functions_checked self v :
  Py.is_None v = false → Py.instance_of v cls_Multipatch = false →
  set_deformation_functions self v
  = Raise (ValueError
      ("Argument deformation_functions must be None or an instance of "
       +:+ "<class 'splinepy.multipatch.Multipatch'>!")).
Proof.
  intros H1 H2. by destruct v.
Qed.

(** [tilings] is checked at the assignment. *)
Lemma set_tilings_checked self v :
  Py.is_None v = false → Py.instance_of v cls_int = false →
  Py.instance_of v cls_list = false →
  set_tilings self v
  = Raise (ValueError
      ("Argument tilings must be None or an instance of "
       +:+ "(<class 'int'>, <class 'list'>)!")).
Proof.
  intros H1 H2 H3. by destruct v.
Qed.

Lemma set_deformation_functions_accepted self v :
  Py.is_None v || Py.instance_of v cls_Multipatch = true →
  set_deformation_functions self v
  = Return (<["_deformation_functions" := v]> self).
Proof.
  by destruct v.
Qed.

Lemma set_tilings_accepted self v :
  Py.is_None v || Py.instance_of v cls_int || Py.instance_of v cls_list
  = true →
  set_tilings self v = Return (<["_tilings" := v]> self).
Proof.
  by destruct v.
Qed.

Lemma set_microtiles_accepted self v :
  set_microtiles self v = Return (<["_microtiles" := v]> self).
Proof.
  unfold set_microtiles, _set_property. simpl. by destruct (Py.is_None v).
Qed.

Lemma set_callable_accepted self v Classes number base :
  property_names !! number = Some base → 2 < number → Classes ≠ NoClass →
  _set_property self v Classes number
  = Return (<["_" +:+ base +:+ "s" := v]> self).
Proof.
  intros Hn Hc HC. unfold _set_property. rewrite Hn.
  rewrite (bool_decide_eq_true_2 (2 < number)) by done.
  rewrite (bool_decide_eq_false_2 (number = 2)) by lia.
  destruct (Py.is_None v); [done|].
  destruct Classes as [c|cs|]; [| |done]; simpl.
  - by destruct (Py.instance_of v c).
  - by destruct (existsb (Py.instance_of v) cs).
Qed.

(** C6 (the code departs from the claim).  The setters of
    [parametrization_functions] and [parameter_sensitivity_functions] raise
    no [ValueError] for any value at all: the guard of [_set_property] asks
    whether the builtin [property] is callable, which it always is, so a
    value that is neither [None], a list nor a callable -- the integer 5,
    say -- is stored as it is. *)
Theorem set_parametrization_functions_never_raises
    (self : gmap string value) (v : value) :
  set_parametrization_functions self v
  = Return (<["_parametrization_functions" := v]> self)
  ∧ set_parameter_sensitivity_functions self v
    = Return (<["_parameter_sensitivity_functions" := v]> self)
  ∧ Py.is_None (VInt 5) = false
  ∧ Py.instance_of (VInt 5) cls_list = false
  ∧ Py.callable (VInt 5) = false
  ∧ set_parametrization_functions self (VInt 5)
    = Return (<["_parametrization_functions" := VInt 5]> self).
Proof.
  assert (∀ u, set_parametrization_functions self u
               = Return (<["_parametrization_functions" := u]> self)) as H
    by (intros u; by apply (set_callable_accepted _ _ _ 3
                              "parametrization_function"); [|lia|]).
  split_and!; try done.
  by apply (set_callable_accepted _ _ _ 4 "parameter_sensitivity_function");
    [|lia|].
Qed.

End setters.

(** ** What [create] leaves untouched *)

#[local] Instance same_on_preorder {X} (f : world → X) : PreOrder (same_on f).
Proof.
  split.
  - by intros w.
  - intros w1 w2 w3 H1 H2. unfold same_on in *. congruence.
Qed.

#[local] Instance next_le_preorder : PreOrder next_le.
Proof.
  split.
  - intros w. unfold next_le. lia.
  - intros w1 w2 w3. unfold next_le. lia.
Qed.

Section create_frame.

Import MultiPatch.

Variable SinglePatch_init :
  value → value → value → value → result (gmap string value).
Variable SinglePatch_create :
  gmap string value → value → value → value → list (string * value) →
  gmap string value * result single_patch_result.

Abbreviation create := (create SinglePatch_init SinglePatch_create).
Abbreviation create_patches :=
  (create_patches SinglePatch_init SinglePatch_create).

(** An observation of [self] that ignores [_microstructures], or any
    observation of the log, of the heap or of the identity counter. *)
Variable R : relation world.
Context `{!PreOrder R}.
Hypothesis R_getattr : ∀ name, preserves R (getattr_self name).
Hypothesis R_log : ∀ lv msg, preserves R (log lv msg).
Hypothesis R_microstructures :
  ∀ v, preserves R (setattr_self "_microstructures" v).
Hypothesis R_new_id : preserves R new_id.
Hypothesis R_heap : ∀ h, preserves R
  (λ w, (World (w_self w) (h (w_heap w)) (w_next w) (w_log w), Return tt)).

Lemma preserves_CheckForAmbiguity N property name :
  preserves R (CheckForAmbiguity N property name).
Proof.
  unfold CheckForAmbiguity. papply @preserves_bind.
  - papply @preserves_if; [apply R_log|by papply @preserves_ret].
  - intros _. by papply @preserves_ret.
Qed.

Lemma preserves_new_single_patch args :
  preserves R (new_single_patch SinglePatch_init args).
Proof.
  destruct args as (patch & tiling & microtile & pf). simpl.
  papply @preserves_bind; [by papply @preserves_lift|]. intros d.
  papply @preserves_bind; [done|]. intros l w w' r [= <- _].
  by eapply (R_heap (insert l d)).
Qed.

Lemma preserves_set_parameter_sensitivity_function arg :
  preserves R (set_parameter_sensitivity_function arg).
Proof. apply R_heap. Qed.

Lemma preserves_single_patch_create kw args :
  preserves R (single_patch_create SinglePatch_create kw args).
Proof.
  destruct args as (l & cf & ksw & ms). intros w w' r. simpl.
  destruct (SinglePatch_create _ _ _ _ _) as [d [e|[|tiles sens]]].
  - intros [= <- _]. by eapply (R_heap (insert l d)).
  - intros [= <- _]. by eapply (R_heap (insert l d)).
  - intros [= <- _]. etrans; [by eapply (R_heap (insert l d))|].
    by eapply R_new_id.
Qed.

Lemma preserves_assemble ms psfs multi_patches :
  preserves R (assemble ms psfs multi_patches).
Proof.
  unfold assemble. papply @preserves_bind; [by papply @preserves_lift|].
  intros results. papply @preserves_bind; [done|].
  intros i. by papply @preserves_ret.
Qed.

Lemma preserves_create_patches df tilings microtiles cf ksw ms kw :
  preserves R (create_patches df tilings microtiles cf ksw ms kw).
Proof.
  unfold MultiPatch.create_patches.
  repeat first
    [ apply preserves_CheckForAmbiguity
    | papply @preserves_mapM; intros ?
    | apply preserves_new_single_patch
    | apply preserves_set_parameter_sensitivity_function
    | apply preserves_single_patch_create
    | apply R_getattr
    | apply R_microstructures
    | by papply @preserves_lift
    | by papply @preserves_ret
    | papply @preserves_bind; [ |intros ?] ].
Qed.

Lemma preserves_create cf ksw ms kw : preserves R (create cf ksw ms kw).
Proof.
  unfold MultiPatch.create.
  do 3 (papply @preserves_bind; [apply R_getattr|intros ?]).
  papply @preserves_if.
  - papply @preserves_bind; [apply R_log|intros _].
    by papply @preserves_ret.
  - papply @preserves_bind; [apply preserves_create_patches|].
    intros [[? ?] ?]. apply preserves_assemble.
Qed.

End create_frame.

(** ** [create] and [show] *)

Section create_show.

Import MultiPatch.

Variable SinglePatch_init :
  value → value → value → value → result (gmap string value).
Variable SinglePatch_create :
  gmap string value → value → value → value → list (string * value) →
  gmap string value * result single_patch_result.
Variable gus_show : value → list (string * value) → M value.

Abbreviation create' := (create SinglePatch_init SinglePatch_create).
Abbreviation show' := (show SinglePatch_init SinglePatch_create gus_show).

(** The only attribute of [self] that [create] assigns is
    [_microstructures]. *)
Lemma create_keeps_attribute name cf ksw ms kw :
  name ≠ "_microstructures" →
  preserves (same_on (λ w, w_self w !! name)) (create' cf ksw ms kw).
Proof.
  intros Hne. apply preserves_create; try apply _; try (intros; step_world).
  by rewrite lookup_insert_ne.
Qed.

Lemma create_next_le cf ksw ms kw : preserves next_le (create' cf ksw ms kw).
Proof. apply preserves_create; try apply _; intros; step_world. Qed.

(** [create] reads the three required attributes with [self._name]: the
    first one that was never assigned ends the call. *)
Lemma create_requires_attributes cf ksw ms kw w name :
  name ∈ ["_deformation_functions"; "_tilings"; "_microtiles"] →
  w_self w !! name = None →
  ∃ missing, (create' cf ksw ms kw w).2 = Raise (AttributeError missing)
             ∧ (create' cf ksw ms kw w).1 = w.
Proof.
  intros Hin Hnone. unfold create, bind, getattr_self, Py.getattr.
  destruct (w_self w !! "_deformation_functions") eqn:E1; [|by eauto].
  destruct (w_self w !! "_tilings") eqn:E2; [|by eauto].
  destruct (w_self w !! "_microtiles") eqn:E3; [|by eauto].
  exfalso. rewrite !elem_of_cons, elem_of_nil in Hin.
  destruct Hin as [->|[->|[->|[]]]]; congruence.
Qed.

(** When the three attributes exist and one of them is [None], [create]
    logs the informational message and returns [None]. *)
Lemma create_incomplete cf ksw ms kw w df tilings microtiles :
  w_self w !! "_deformation_functions" = Some df →
  w_self w !! "_tilings" = Some tilings →
  w_self w !! "_microtiles" = Some microtiles →
  Py.is_None df || Py.is_None tilings || Py.is_None microtiles = true →
  create' cf ksw ms kw w
  = (World (w_self w) (w_heap w) (w_next w)
       (w_log w ++ [(LvInfo,
          "Current information not sufficient, awaiting further assignments!")]),
     Return VNone).
Proof.
  intros E1 E2 E3 H. unfold create, bind, getattr_self, Py.getattr.
  by rewrite E1, E2, E3, H.
Qed.

(** C5 (the code departs from the claim).  A builder constructed with
    every argument [None] has none of the required attributes set, and
    [create] on it raises an [AttributeError] instead of logging and
    returning [None]. *)
Theorem create_on_unset_builder_raises
    (cf ksw ms : value) (kw : list (string * value)) :
  __init__ VNone VNone VNone VNone = Return ∅
  ∧ create' cf ksw ms kw (World ∅ ∅ 0 [])
    = (World ∅ ∅ 0 [], Raise (AttributeError "_deformation_functions")).
Proof. done. Qed.

(** The two optional attributes are read the same way: a builder
    constructed with the three required arguments only has no
    [_parametrization_functions], and [create] ends there. *)
Lemma create_on_required_only_raises
    (cf ksw ms : value) (kw : list (string * value)) :
  ∃ self,
    __init__ Sample.two_patches (VInt 2) Sample.tile VNone = Return self
    ∧ self !! "_parametrization_functions" = None
    ∧ (create' cf ksw ms kw (World self ∅ 1 [])).2
      = Raise (AttributeError "_parametrization_functions").
Proof. eexists. split_and!; [reflexivity|done..]. Qed.

(** C8 (the code departs from the claim).  [create] never assigns
    [_microstructure_created], the attribute [show] looks for: on a
    builder where it was not put by other means, [show(use_saved=True)]
    after any [create] -- a successful one included -- raises the
    [ValueError] of a builder that never created anything. *)
Theorem show_use_saved_after_create_raises
    (cf ksw ms : value) (kw kw' : list (string * value)) (w w' : world)
    (r : result value) :
  w_self w !! "_microstructure_created" = None →
  create' cf ksw ms kw w = (w', r) →
  show' true kw' w'
  = (w', Raise (ValueError "No previously created microstructure saved!")).
Proof.
  intros Hnone Hrun.
  pose proof (create_keeps_attribute "_microstructure_created" cf ksw ms kw
                ltac:(done) _ _ _ Hrun) as Hsame.
  unfold same_on in Hsame. simpl in Hsame. rewrite Hnone in Hsame.
  unfold show, bind, Py.hasattr. rewrite Hsame.
  rewrite bool_decide_eq_false_2 by apply is_Some_None. reflexivity.
Qed.

(** With the attribute present -- assigned by hand, since no method does
    it -- [show(use_saved=True)] displays the saved value and does not
    run [create]. *)
Lemma show_use_saved_reads_attribute kw w v :
  w_self w !! "_microstructure_created" = Some v →
  show' true kw w = gus_show v kw w.
Proof.
  intros H. unfold show, bind, Py.hasattr, getattr_self, Py.getattr.
  rewrite H. rewrite bool_decide_eq_true_2 by eauto. simpl. by rewrite H.
Qed.

End create_show.

(** A successful [create] on a fully configured two-patch builder, followed
    by [show(use_saved=True)]. *)
Lemma show_use_saved_after_create_raises_witness :
  ∃ w' mp,
    Sample.create VNone VNone VNone [] (Sample.configured (VInt 2) VNone)
    = (w', Return (VMultipatch mp))
    ∧ Sample.show true [] w'
      = (w', Raise (ValueError "No previously created microstructure saved!")).
Proof.
  eexists _, _. split.
  - vm_compute. reflexivity.
  - eapply (show_use_saved_after_create_raises Sample.SinglePatch_init
              Sample.SinglePatch_create Sample.gus_show VNone VNone VNone []
              [] (Sample.configured (VInt 2) VNone)).
    + vm_compute. reflexivity.
    + vm_compute. reflexivity.
Defined.

(** ** [Solid3D.create_tile] *)

Section solid_3d.

Import Solid3D.

Variable builtins : gset string.
Variable call_bound :
  binding → string → value → value → value →
  result (list Bezier * list (list Bezier)).

Abbreviation create_tile' := (create_tile builtins call_bound).

Lemma center_tile_is_unit_cube :
  np_add (center_points 0.5) (replicate 3 0.5%float) = unit_cube_corners.
Proof. reflexivity. Qed.

Lemma derivative_tile_is_zero :
  np_add (center_points 0) (replicate 3 0%float) = zero_points.
Proof. reflexivity. Qed.

(** Every triple of coordinates in {0, 1} is one of the eight points. *)
Lemma unit_cube_corners_complete (x y z : float) :
  x ∈ [0; 1]%float → y ∈ [0; 1]%float → z ∈ [0; 1]%float →
  [x; y; z] ∈ unit_cube_corners.
Proof.
  rewrite !elem_of_cons, !elem_of_nil.
  intros [->|[->|[]]] [->|[->|[]]] [->|[->|[]]];
    unfold unit_cube_corners; set_solver.
Qed.

(** C9.  Whatever [parameters], [parameter_sensitivities] and the extra
    keyword arguments are, [create_tile] with [closure=None] returns one
    Bezier of degrees [1, 1, 1] whose eight control points are the corners
    of the unit cube, and a derivative list of exactly two entries -- fewer
    than [_para_dim = 3] -- each a one-element list whose Bezier has only
    zero control points. *)
Theorem create_tile_without_closure
    (parameters parameter_sensitivities : value)
    (kw : list (string * value)) :
  ∃ splines derivatives,
    create_tile' parameters parameter_sensitivities VNone kw
    = Return (splines, derivatives)
    ∧ splines = [mkBezier [1; 1; 1]%Z unit_cube_corners]
    ∧ length unit_cube_corners = 8
    ∧ NoDup unit_cube_corners
    ∧ derivatives = [[mkBezier [1; 1; 1]%Z zero_points];
                     [mkBezier [1; 1; 1]%Z zero_points]]
    ∧ length derivatives = 2
    ∧ (Z.of_nat (length derivatives) < _para_dim)%Z
    ∧ Forall (Forall (λ c, c = 0%float)) zero_points.
Proof.
  eexists _, _. split; [reflexivity|]. split_and!; try done.
  - unfold unit_cube_corners.
    repeat (apply NoDup_cons; split;
            [rewrite ?elem_of_cons, elem_of_nil; intros H;
             repeat destruct H as [H|H]; try done;
             apply (f_equal (map (PrimFloat.ltb 0))) in H;
             discriminate H|]).
    apply NoDup_nil_2.
  - unfold zero_points. repeat constructor.
Qed.

Lemma create_tile_not_in_scope :
  ("create_tile" ∉ _closing_tile_locals) ∧ ("create_tile" ∉ module_globals).
Proof. split; vm_compute; intros H; discriminate H. Qed.

(** C10.  With any closure other than [None], [create_tile] hands over to
    [_closing_tile], whose body names [create_tile] as a bare name; the
    name is bound neither in the body, nor at module level, nor in the
    builtins, so the call ends in a [NameError] and no tile comes back. *)
Theorem create_tile_with_closure_raises
    (parameters parameter_sensitivities closure : value)
    (kw : list (string * value)) :
  "create_tile" ∉ builtins →
  closure ≠ VNone →
  create_tile' parameters parameter_sensitivities closure kw
  = Raise (NameError "create_tile").
Proof.
  intros Hb Hc. unfold create_tile.
  replace (Py.is_None closure) with false by (by destruct closure).
  simpl. unfold _closing_tile, lookup_name.
  destruct create_tile_not_in_scope as [Hl Hg].
  by rewrite !bool_decide_eq_false_2.
Qed.

End solid_3d.

Lemma create_tile_with_closure_raises_witness :
  Solid3D.create_tile Sample.builtins Sample.call_bound VNone VNone (VStr "x") []
  = Raise (NameError "create_tile").
Proof.
  apply (create_tile_with_closure_raises Sample.builtins Sample.call_bound
           VNone VNone (VStr "x") []).
  - vm_compute. intros H. discriminate H.
  - discriminate.
Defined.

(** ** The [deformation_function] setter of the facade *)

Section facade_rebuild.

Import Microstructure.

Variable SinglePatch_init :
  value → value → value → value → result (gmap string value).

Abbreviation value_of := (λ (x : list (level * string) * result value), x.2).

(** What a getter of the facade returns. *)
Lemma get_property_value self number message base :
  property_names !! number = Some base →
  (_get_property self number message).2
  = Return (Py.getattr_default (d_dict (_microstructure self))
              ("_" +:+ base +:+ (if _is_single_patch self then "" else "s"))).
Proof.
  intros Hn. unfold _get_property, _get_property_name. rewrite Hn.
  unfold Py.hasattr, Py.getattr, Py.getattr_default.
  destruct (d_dict (_microstructure self) !! _) eqn:E.
  - by rewrite bool_decide_eq_true_2 by eauto.
  - by rewrite bool_decide_eq_false_2 by apply is_Some_None.
Qed.

Lemma set_property_Return self v Classes number self' :
  MultiPatch._set_property self v Classes number = Return self' →
  ∃ base, MultiPatch.property_names !! number = Some base
          ∧ self' = <["_" +:+ base +:+ "s" := v]> self.
Proof.
  unfold MultiPatch._set_property.
  destruct (MultiPatch.property_names !! number) as [base|]; [|done].
  intros H. exists base. split; [done|].
  repeat match type of H with
         | context [match ?x with _ => _ end] => destruct x; try discriminate
         end; by injection H as <-.
Qed.

(** The constructor of the multi-patch builder stores each argument that is
    not [None] and nothing else. *)
Lemma multi_patch_init_Return df tilings microtiles pfs d :
  MultiPatch.__init__ df tilings microtiles pfs = Return d →
  MultiPatch.deformation_functions d = df
  ∧ MultiPatch.tilings d = tilings
  ∧ MultiPatch.microtiles d = microtiles
  ∧ MultiPatch.parametrization_functions d = pfs
  ∧ d !! "_parameter_sensitivity_functions" = None.
Proof.
  unfold MultiPatch.__init__, MultiPatch.then_set.
  unfold MultiPatch.set_deformation_functions, MultiPatch.set_tilings,
    MultiPatch.set_microtiles, MultiPatch.set_parametrization_functions.
  intros H.
  destruct (Py.is_None df) eqn:E1;
    [|destruct (MultiPatch._set_property ∅ df _ 0) as [|d1] eqn:S1;
      [by destruct (Py.is_None tilings), (Py.is_None microtiles),
            (Py.is_None pfs)|
       apply set_property_Return in S1 as (? & [= <-] & ->)]];
  (destruct (Py.is_None tilings) eqn:E2;
    [|match type of H with
      | context [MultiPatch._set_property ?s tilings ?c 1] =>
          destruct (MultiPatch._set_property s tilings c 1) as [|d2] eqn:S2;
          [by destruct (Py.is_None microtiles), (Py.is_None pfs)|
           apply set_property_Return in S2 as (? & [= <-] & ->)]
      end]);
  (destruct (Py.is_None microtiles) eqn:E3;
    [|match type of H with
      | context [MultiPatch._set_property ?s microtiles ?c 2] =>
          destruct (MultiPatch._set_property s microtiles c 2) as [|d3] eqn:S3;
          [by destruct (Py.is_None pfs)|
           apply set_property_Return in S3 as (? & [= <-] & ->)]
      end]);
  (destruct (Py.is_None pfs) eqn:E4;
    [injection H as <-|
     apply set_property_Return in H as (? & [= <-] & ->)]);
  repeat match goal with
         | E : Py.is_None ?v = true |- _ => destruct v; try discriminate E; clear E
         end;
  unfold MultiPatch.deformation_functions, MultiPatch.tilings,
    MultiPatch.microtiles, MultiPatch.parametrization_functions,
    Py.getattr_default; simpl;
  by simplify_map_eq.
Qed.


End facade_rebuild.



(** The sample facade is the one the constructor and the setter build. *)
Lemma facade_with_sensitivity_built :
  ∃ self,
    Microstructure.new Sample.SinglePatch_init Sample.two_patches (VInt 2)
      Sample.tile (VFunction "p") = Return self
    ∧ Microstructure.set_parameter_sensitivity_function self (VFunction "f")
      = (Sample.facade_with_sensitivity, [], Return tt).
Proof. eexists. split; vm_compute; reflexivity. Qed.

(** ** A successful [create], stage by stage *)

Lemma CheckForAmbiguity_run N property name w :
  MultiPatch.CheckForAmbiguity N property name w
  = (World (w_self w) (w_heap w) (w_next w)
       (w_log w ++ diagnostics N property name),
     Return (MultiPatch.CheckForListAndCreateOtherwise N property)).
Proof.
  unfold MultiPatch.CheckForAmbiguity, diagnostics, bind.
  destruct (MultiPatch.is_list_of_length N property); simpl; [done|].
  rewrite app_nil_r. by destruct w.
Qed.

Section create_run.

Import MultiPatch.

Variable SinglePatch_init :
  value → value → value → value → result (gmap string value).
Variable SinglePatch_create :
  gmap string value → value → value → value → list (string * value) →
  gmap string value * result single_patch_result.

Abbreviation new_single_patch' := (new_single_patch SinglePatch_init).
Abbreviation single_patch_create' := (single_patch_create SinglePatch_create).

Lemma new_single_patch_Return arg w w1 l :
  new_single_patch' arg w = (w1, Return l) →
  ∃ d, init_of SinglePatch_init arg = Return d ∧ l = w_next w
       ∧ w1 = World (w_self w) (<[w_next w := d]> (w_heap w)) (S (w_next w))
                (w_log w).
Proof.
  destruct arg as (patch & tiling & microtile & pf).
  unfold new_single_patch, init_of, bind, lift, new_id. simpl.
  destruct (SinglePatch_init patch tiling microtile pf) as [|d]; [done|].
  intros [= <- <-]. eauto.
Qed.

(** The builders are allocated at consecutive fresh addresses, each with
    the dictionary its constructor returned. *)
Lemma mapM_new_single_patch args w w1 locs :
  mapM new_single_patch' args w = (w1, Return locs) →
  locs = seq (w_next w) (length args)
  ∧ w_next w1 = w_next w + length args
  ∧ w_self w1 = w_self w
  ∧ w_log w1 = w_log w
  ∧ (∀ l, l < w_next w → w_heap w1 !! l = w_heap w !! l)
  ∧ (∀ k arg, args !! k = Some arg →
       ∃ d, init_of SinglePatch_init arg = Return d ∧ w_heap w1 !! (w_next w + k) = Some d).
Proof.
  revert w w1 locs. induction args as [|arg args IH]; intros w w1 locs.
  - intros [= <- <-]. split_and!; try done; simpl; lia.
  - simpl. intros (l & wa & Hl & H)%bind_Return.
    apply bind_Return in H as (ls & wb & Hls & [= <- <-]).
    apply new_single_patch_Return in Hl as (d & Hd & -> & ->).
    apply IH in Hls as (-> & Hn & Hs & Hg & Hframe & Hk). simpl in *.
    split_and!; try done; try lia.
    + intros l Hlt. rewrite Hframe by lia. by rewrite lookup_insert_ne by lia.
    + intros [|k] arg' Hk'; simpl in Hk'.
      * injection Hk' as <-. exists d. split; [done|].
        rewrite Nat.add_0_r, Hframe by lia. by rewrite lookup_insert_eq.
      * destruct (Hk k arg' Hk') as (d' & Hd' & Hh). exists d'.
        split; [done|]. by replace (w_next w + S k) with (S (w_next w + k)) by lia.
Qed.

(** The loop of lines 316-319 stores each function in its builder. *)
Lemma mapM_set_parameter_sensitivity_function (ps : list (loc * value)) w :
  ∃ w2 us,
    mapM set_parameter_sensitivity_function ps w = (w2, Return us)
    ∧ w_self w2 = w_self w ∧ w_next w2 = w_next w ∧ w_log w2 = w_log w
    ∧ (∀ l, l ∉ ps.*1 → w_heap w2 !! l = w_heap w !! l)
    ∧ (NoDup ps.*1 → ∀ l f, (l, f) ∈ ps →
         w_heap w2 !! l
         = insert "_parameter_sensitivity_function" f <$> w_heap w !! l).
Proof.
  revert w. induction ps as [|[l f] ps IH]; intros w.
  - exists w, []. split_and!; try done. intros _ l f H. by apply elem_of_nil in H.
  - set (wa := World (w_self w)
                 (alter (insert "_parameter_sensitivity_function" f) l
                    (w_heap w)) (w_next w) (w_log w)).
    destruct (IH wa) as (w2 & us & Hrun & Hs & Hn & Hg & Hframe & Hin).
    exists w2, (tt :: us). split_and!; try done.
    + simpl. unfold bind at 1. simpl. fold wa. by rewrite (bind_run _ _ _ _ _ Hrun).
    + intros l' Hl'. rewrite fmap_cons, not_elem_of_cons in Hl'.
      destruct Hl' as [Hne Hl']. rewrite Hframe by done. simpl.
      by rewrite lookup_alter_ne.
    + rewrite fmap_cons, NoDup_cons. intros [Hl Hnd] l' f'.
      rewrite elem_of_cons. intros [[= -> ->]|Hin'].
      * rewrite Hframe by done. simpl. by rewrite lookup_alter_eq.
      * rewrite (Hin Hnd _ _ Hin'). simpl. rewrite lookup_alter_ne; [done|].
        intros ->. apply Hl. apply list_elem_of_fmap. by exists (l', f').
Qed.

Lemma single_patch_create_Return kw l a w w1 v :
  single_patch_create' kw (l, a) w = (w1, Return v) →
  returned (outcome SinglePatch_create kw (default ∅ (w_heap w !! l)) a) v
  ∧ w_self w1 = w_self w ∧ w_log w1 = w_log w ∧ w_next w ≤ w_next w1
  ∧ (∀ l', l' ≠ l → w_heap w1 !! l' = w_heap w !! l')
  ∧ (∀ mp, v = VMultipatch mp → mp_id mp = w_next w ∧ w_next w1 = S (w_next w)).
Proof.
  destruct a as (cf & ksw & ms). unfold single_patch_create, outcome, returned.
  simpl.
  destruct (SinglePatch_create _ cf ksw ms kw) as [d [e|[|tiles sens]]];
    [done| |]; intros [= <- <-]; simpl.
  - split_and!; try done. intros l' Hne. by rewrite lookup_insert_ne.
  - split_and!; eauto.
    + intros l' Hne. by rewrite lookup_insert_ne.
    + by intros mp [= <-].
Qed.

(** The loop of lines 324-329: the builders are run in order, each on its
    own dictionary; every [Multipatch] returned is a new object. *)
Lemma mapM_single_patch_create kw
    (args : list (loc * (value * (value * value)))) w w' mps :
  NoDup args.*1 →
  mapM (single_patch_create' kw) args w = (w', Return mps) →
  length mps = length args
  ∧ w_self w' = w_self w ∧ w_log w' = w_log w ∧ w_next w ≤ w_next w'
  ∧ (∀ l, l ∉ args.*1 → w_heap w' !! l = w_heap w !! l)
  ∧ (∀ k l a, args !! k = Some (l, a) →
       ∃ v, mps !! k = Some v
            ∧ returned (outcome SinglePatch_create kw (default ∅ (w_heap w !! l)) a) v)
  ∧ (∀ k mp, mps !! k = Some (VMultipatch mp) →
       w_next w ≤ mp_id mp < w_next w')
  ∧ (∀ i j mpi mpj, i < j → mps !! i = Some (VMultipatch mpi) →
       mps !! j = Some (VMultipatch mpj) → mp_id mpi < mp_id mpj).
Proof.
  revert w w' mps. induction args as [|[l a] args IH]; intros w w' mps Hnd.
  - intros [= <- <-]. split_and!; try done.
  - rewrite fmap_cons, NoDup_cons in Hnd. destruct Hnd as [Hl Hnd].
    simpl. intros (v & wa & Hv & H)%bind_Return.
    apply bind_Return in H as (vs & wb & Hvs & [= <- <-]).
    apply single_patch_create_Return in Hv
      as (Hret & Hs & Hg & Hn & Hframe & Hid).
    apply IH in Hvs as (Hlen & Hs' & Hg' & Hn' & Hframe' & Hk & Hrange & Hord);
      [|done].
    split_and!; try congruence; try lia.
    + simpl. by rewrite Hlen.
    + intros l' Hl'. rewrite ?fmap_cons, not_elem_of_cons in Hl'.
      destruct Hl' as [Hne Hl']. rewrite Hframe' by done. by apply Hframe.
    + intros [|k] l' a' Hk'; simpl in Hk'.
      * injection Hk' as <- <-. by exists v.
      * destruct (Hk k l' a' Hk') as (v' & Hv' & Hret'). exists v'.
        split; [done|]. rewrite Hframe in Hret'; [done|].
        intros ->. apply Hl. apply list_elem_of_fmap. exists (l, a').
        split; [done|]. by eapply list_elem_of_lookup_2.
    + intros [|k] mp Hk'; simpl in Hk'.
      * injection Hk' as ->. destruct (Hid mp eq_refl) as [-> ?]. lia.
      * apply Hrange in Hk'. lia.
    + intros i j mpi mpj Hij Hi Hj. destruct j as [|j]; [lia|].
      simpl in Hj. destruct i as [|i]; simpl in Hi.
      * injection Hi as ->. destruct (Hid mpi eq_refl) as [-> ?].
        apply Hrange in Hj. lia.
      * eapply (Hord i j); [lia|done..].
Qed.

Lemma getattr_self_Return name w w1 v :
  getattr_self name w = (w1, Return v) → w1 = w ∧ w_self w !! name = Some v.
Proof.
  unfold getattr_self, Py.getattr.
  destruct (w_self w !! name); [|done]. by intros [= <- <-].
Qed.

Lemma mapR_as_Multipatch (vs : list value) results :
  mapR Py.as_Multipatch vs = Return results → vs = VMultipatch <$> results.
Proof.
  revert results. induction vs as [|v vs IH]; intros results; simpl.
  - by intros [= <-].
  - destruct v; try done. destruct (mapR Py.as_Multipatch vs); [done|].
    intros [= <-]. simpl. f_equal. by apply IH.
Qed.

Lemma NoDup_increasing (ids : list nat) :
  (∀ i j a b, i < j → ids !! i = Some a → ids !! j = Some b → a < b) →
  NoDup ids.
Proof.
  intros H. apply NoDup_alt. intros i j a Hi Hj.
  destruct (Nat.lt_total i j) as [Hlt|[->|Hlt]]; [|done|].
  - pose proof (H i j a a Hlt Hi Hj). lia.
  - pose proof (H j i a a Hlt Hj Hi). lia.
Qed.

Lemma create_patches_Return df tilings microtiles cf ksw ms kw w w' out :
  create_patches SinglePatch_init SinglePatch_create df tilings microtiles
    cf ksw ms kw w = (w', Return out) →
  ∃ outer pfs psfs,
    df = VMultipatch outer
    ∧ w_self w !! "_parametrization_functions" = Some pfs
    ∧ w_self w !! "_parameter_sensitivity_functions" = Some psfs
    ∧ let N := length (patches outer) in
      out.1.1 = CheckForListAndCreateOtherwise N ms
      ∧ out.1.2 = CheckForListAndCreateOtherwise N psfs
      ∧ length out.2 = N
      ∧ w_log w' = w_log w ++ diagnostics N tilings "tiling"
                   ++ diagnostics N microtiles "microtile"
                   ++ diagnostics N psfs "parameter_sensitivity_function"
      ∧ (∀ i j mpi mpj, i < j → out.2 !! i = Some (VMultipatch mpi) →
           out.2 !! j = Some (VMultipatch mpj) → mp_id mpi < mp_id mpj)
      ∧ (∀ k res, out.2 !! k = Some (VMultipatch res) →
           ∃ patch t m pf psf cf_k ksw_k ms_k,
             patches outer !! k = Some patch
             ∧ CheckForListAndCreateOtherwise N tilings !! k = Some t
             ∧ CheckForListAndCreateOtherwise N microtiles !! k = Some m
             ∧ CheckForListAndCreateOtherwise N pfs !! k = Some pf
             ∧ CheckForListAndCreateOtherwise N psfs !! k = Some psf
             ∧ CheckForListAndCreateOtherwise N cf !! k = Some cf_k
             ∧ CheckForListAndCreateOtherwise N ksw !! k = Some ksw_k
             ∧ CheckForListAndCreateOtherwise N ms !! k = Some ms_k
             ∧ single_patch_run SinglePatch_init SinglePatch_create kw patch t m pf psf cf_k ksw_k ms_k
               = Return (Built (patches res) (fields res))).
Proof.
  unfold create_patches.
  intros (outer & w0 & [-> Hdf]%lift_Return & H)%bind_Return.
  destruct df as [| | | | | | | |outer'| |]; try done. injection Hdf as ->.
  apply bind_Return in H as (pfs & w0 & [-> Hpfs]%getattr_self_Return & H).
  apply bind_Return in H as (psfs & w0 & [-> Hpsfs]%getattr_self_Return & H).
  set (N := length (patches outer)) in *.
  rewrite (bind_run _ _ _ _ _ (CheckForAmbiguity_run N tilings "tiling" w)) in H.
  rewrite (bind_run _ _ _ _ _ (CheckForAmbiguity_run N microtiles "microtile" _))
    in H.
  apply bind_Return in H as (locs & w1 & Hlocs & H).
  apply bind_Return in H as ([] & w1' & [= <-] & H).
  rewrite (bind_run _ _ _ _ _
             (CheckForAmbiguity_run N psfs "parameter_sensitivity_function" _))
    in H.
  apply bind_Return in H as (us & w2 & Hus & H).
  apply bind_Return in H as (mps & w3 & Hmps & [= <- <-]).
  cbn [w_self w_heap w_next w_log] in *.
  set (T := CheckForListAndCreateOtherwise N tilings) in *.
  set (Mi := CheckForListAndCreateOtherwise N microtiles) in *.
  set (P := CheckForListAndCreateOtherwise N pfs) in *.
  set (PS := CheckForListAndCreateOtherwise N psfs) in *.
  set (CF := CheckForListAndCreateOtherwise N cf) in *.
  set (KSW := CheckForListAndCreateOtherwise N ksw) in *.
  set (MS := CheckForListAndCreateOtherwise N ms) in *.
  assert (length T = N ∧ length Mi = N ∧ length P = N ∧ length PS = N
          ∧ length CF = N ∧ length KSW = N ∧ length MS = N)
    as (LT & LMi & LP & LPS & LCF & LKSW & LMS)
    by (split_and!; apply broadcast_length).
  apply mapM_new_single_patch in Hlocs as (-> & Hn1 & Hs1 & Hg1 & _ & Hk1).
  cbn [w_self w_heap w_next w_log] in *.
  rewrite !length_zip_with, LT, LMi, LP in *. fold N in Hn1, Hus, Hmps.
  replace (N `min` (N `min` (N `min` N))) with N in * by lia.
  set (locs := seq (w_next w) N) in *.
  assert (length locs = N) as Llocs by apply length_seq.
  match type of Hus with
  | mapM _ ?ps ?wb = _ =>
      destruct (mapM_set_parameter_sensitivity_function ps wb)
        as (w2' & us' & Hrun & Hs2 & Hn2 & Hg2 & _ & Hin2)
  end.
  rewrite Hrun in Hus. injection Hus as <- <-.
  cbn [w_self w_heap w_next w_log] in *.
  rewrite fst_zip in Hin2 by lia.
  specialize (Hin2 (NoDup_seq _ _)).
  apply mapM_single_patch_create in Hmps
    as (Lmps & Hs3 & Hg3 & Hn3 & _ & Hk3 & _ & Hord);
    [|rewrite fst_zip; [apply NoDup_seq|rewrite !length_zip_with; lia]].
  rewrite !length_zip_with, LCF, LKSW, LMS, Llocs in Lmps.
  exists outer, pfs, psfs. split_and!; try done.
  - simpl. lia.
  - simpl. rewrite Hg3, Hg2, Hg1. by rewrite <- !app_assoc.
  - intros k res Hres. simpl in Hres.
    assert (k < N) as Hk
      by (apply lookup_lt_Some in Hres; lia).
    destruct (lookup_lt_is_Some_2 (patches outer) k) as [patch Hpatch]; [done|].
    destruct (lookup_lt_is_Some_2 T k) as [t Ht]; [lia|].
    destruct (lookup_lt_is_Some_2 Mi k) as [m Hm]; [lia|].
    destruct (lookup_lt_is_Some_2 P k) as [pf Hpf]; [lia|].
    destruct (lookup_lt_is_Some_2 PS k) as [psf Hpsf]; [lia|].
    destruct (lookup_lt_is_Some_2 CF k) as [cf_k Hcf]; [lia|].
    destruct (lookup_lt_is_Some_2 KSW k) as [ksw_k Hksw]; [lia|].
    destruct (lookup_lt_is_Some_2 MS k) as [ms_k Hms]; [lia|].
    assert (locs !! k = Some (w_next w + k)) as Hl
      by (by apply lookup_seq).
    exists patch, t, m, pf, psf, cf_k, ksw_k, ms_k. split_and!; try done.
    destruct (Hk1 k (patch, (t, (m, pf)))) as (d & Hd & Hheap1).
    { apply lookup_zip_with_Some. eexists _, _. split_and!; [done..|].
      apply lookup_zip_with_Some. eexists _, _. split_and!; [done..|].
      apply lookup_zip_with_Some. eauto. }
    specialize (Hin2 (w_next w + k) psf). rewrite Hheap1 in Hin2.
    destruct (Hk3 k (w_next w + k) (cf_k, (ksw_k, ms_k))) as (v & Hv & Hret).
    { apply lookup_zip_with_Some. eexists _, _. split_and!; [done..|].
      apply lookup_zip_with_Some. eexists _, _. split_and!; [done..|].
      apply lookup_zip_with_Some. eauto. }
    rewrite Hin2 in Hret.
    2:{ apply list_elem_of_lookup. exists k.
        apply lookup_zip_with_Some. eauto. }
    rewrite Hres in Hv. injection Hv as <-.
    unfold single_patch_run. unfold init_of in Hd. simpl in Hd. rewrite Hd.
    unfold returned, outcome in Hret. simpl in Hret.
    destruct (SinglePatch_create _ cf_k ksw_k ms_k kw) as [d' [e|[|tiles sens]]];
      simpl in *; try done.
    by destruct Hret as [i [= ->]].
Qed.

(** Everything a successful [create] that returns a multi-patch went
    through. *)
Lemma create_Return cf ksw ms kw w w' mp :
  create SinglePatch_init SinglePatch_create cf ksw ms kw w
  = (w', Return (VMultipatch mp)) →
  ∃ outer tilings microtiles pfs psfs results,
    w_self w !! "_deformation_functions" = Some (VMultipatch outer)
    ∧ w_self w !! "_tilings" = Some tilings
    ∧ w_self w !! "_microtiles" = Some microtiles
    ∧ w_self w !! "_parametrization_functions" = Some pfs
    ∧ w_self w !! "_parameter_sensitivity_functions" = Some psfs
    ∧ per_patch_results SinglePatch_init SinglePatch_create kw outer tilings microtiles pfs psfs cf ksw ms results
    ∧ NoDup (mp_id <$> results)
    ∧ patches mp = results ≫= patches
    ∧ fields mp = combined_fields results
    ∧ w_log w' = w_log w
                 ++ diagnostics (length (patches outer)) tilings "tiling"
                 ++ diagnostics (length (patches outer)) microtiles "microtile"
                 ++ diagnostics (length (patches outer)) psfs
                      "parameter_sensitivity_function".
Proof.
  unfold create.
  intros (df & w0 & [-> Hdf]%getattr_self_Return & H)%bind_Return.
  apply bind_Return in H as (tilings & w0 & [-> Ht]%getattr_self_Return & H).
  apply bind_Return in H as (microtiles & w0 & [-> Hm]%getattr_self_Return & H).
  destruct (Py.is_None df || Py.is_None tilings || Py.is_None microtiles).
  { by apply bind_Return in H as ([] & w0 & _ & [= _]). }
  apply bind_Return in H as ([[macro psfs'] mps] & w1 & Hbuilt & H).
  apply create_patches_Return in Hbuilt
    as (outer & pfs & psfs & -> & Hpfs & Hpsfs & Hbuilt).
  simpl in Hbuilt.
  destruct Hbuilt as (-> & -> & Lmps & Hlog & Hord & Hk).
  unfold assemble in H.
  apply bind_Return in H as (results & w2 & [-> Hres]%lift_Return & H).
  apply mapR_as_Multipatch in Hres as ->.
  apply bind_Return in H as (i & w2 & [= <- <-] & [= <- <-]).
  rewrite length_fmap in Lmps.
  exists outer, tilings, microtiles, pfs, psfs, results.
  split_and!; try done.
  - split; [done|]. intros k res Hres. apply Hk.
    by rewrite list_lookup_fmap, Hres.
  - apply NoDup_increasing. intros a b ia ib Hab Ha Hb.
    rewrite list_lookup_fmap in Ha, Hb.
    destruct (results !! a) as [ra|] eqn:Ea; [|done].
    destruct (results !! b) as [rb|] eqn:Eb; [|done].
    injection Ha as <-. injection Hb as <-.
    apply (Hord a b); [done|by rewrite list_lookup_fmap, ?Ea, ?Eb..].
  - by destruct (_ || _).
  - destruct (negb (bool_decide _) || _) eqn:Hcond; [done|]. simpl.
    apply orb_false_elim in Hcond as [Hempty _].
    apply negb_false_iff, bool_decide_eq_true in Hempty.
    pose proof (broadcast_length (length (patches outer)) ms) as Hlen.
    rewrite Hempty in Hlen. simpl in Hlen. rewrite <- Hlen in Lmps.
    by destruct results.
Qed.

End create_run.

(** ** Index ranges in the combined collection *)

Section ranges.

Implicit Types results : list (Multipatch value).

Lemma bind_concat results :
  results ≫= patches = concat (patches <$> results).
Proof.
  induction results as [|r results IH]; [done|].
  rewrite bind_cons, fmap_cons. simpl. by rewrite IH.
Qed.

Lemma length_bind_patches results :
  length (results ≫= patches) = sum_list (length ∘ patches <$> results).
Proof.
  induction results as [|r results IH]; [done|].
  rewrite bind_cons, fmap_cons, length_app, IH. done.
Qed.

Lemma offset_S results k r :
  results !! k = Some r →
  offset results (S k) = offset results k + length (patches r).
Proof.
  intros H. unfold offset. rewrite (take_S_r _ _ _ H), bind_app, length_app.
  simpl. by rewrite app_nil_r.
Qed.

Lemma offset_mono results i j : i ≤ j → offset results i ≤ offset results j.
Proof.
  intros Hij. unfold offset.
  replace (take i results) with (take i (take j results))
    by (rewrite take_take; f_equal; lia).
  rewrite <- (take_drop i (take j results)) at 2.
  rewrite bind_app, length_app. lia.
Qed.

Lemma offset_total results k :
  offset results k ≤ length (results ≫= patches).
Proof.
  unfold offset. rewrite <- (take_drop k results) at 2.
  rewrite bind_app, length_app. lia.
Qed.

Lemma bind_patches_middle results k r :
  results !! k = Some r →
  results ≫= patches
  = (take k results ≫= patches) ++ patches r
    ++ (drop (S k) results ≫= patches).
Proof.
  intros Hk. rewrite <- (take_drop_middle _ _ _ Hk) at 1.
  by rewrite bind_app, bind_cons.
Qed.

Lemma lookup_bind_patches results k r a :
  results !! k = Some r → a < length (patches r) →
  (results ≫= patches) !! (offset results k + a) = patches r !! a.
Proof.
  intros Hk Ha. unfold offset. rewrite (bind_patches_middle _ _ _ Hk) at 1.
  rewrite lookup_app_r by lia.
  replace (_ + a - _) with a by lia. by rewrite lookup_app_l.
Qed.

(** The tiles of an earlier patch sit at smaller indices. *)
Lemma ranges_ordered results i j ri a b :
  i < j → results !! i = Some ri → a < length (patches ri) →
  offset results i + a < offset results j + b.
Proof.
  intros Hij Hi Ha. pose proof (offset_S _ _ _ Hi).
  pose proof (offset_mono results (S i) j ltac:(lia)). lia.
Qed.

Lemma bind_replicate_None results :
  (results ≫= λ r, replicate (length (patches r)) VNone)
  = replicate (length (results ≫= patches)) (VNone : value).
Proof.
  induction results as [|r results IH]; [done|].
  by rewrite !bind_cons, IH, length_app, replicate_add.
Qed.

(** The inner comprehension pads the field of the patch it came from. *)
Lemma combined_field_padded results k r f :
  NoDup (mp_id <$> results) → results !! k = Some r →
  MultiPatch.combined_field results r f = padded results k f.
Proof.
  intros Hnd Hk. unfold MultiPatch.combined_field, padded.
  assert (∀ l, Forall (λ r', mp_id r' ≠ mp_id r) l →
            (l ≫= λ r', if MultiPatch.is_ r' r then f
                        else replicate (length (patches r')) VNone)
            = replicate (length (l ≫= patches)) VNone) as Hother.
  { intros l Hl. rewrite <- bind_replicate_None.
    induction Hl as [|r' l Hne Hl IH]; [done|].
    rewrite !bind_cons, IH. unfold MultiPatch.is_.
    by rewrite bool_decide_eq_false_2. }
  rewrite <- (take_drop_middle _ _ _ Hk) in Hnd.
  rewrite fmap_app, fmap_cons in Hnd.
  apply NoDup_app in Hnd as (_ & Hbefore & [Hafter _]%NoDup_cons).
  rewrite <- (take_drop_middle _ _ _ Hk) at 1.
  rewrite bind_app, bind_cons. unfold MultiPatch.is_ at 2.
  rewrite bool_decide_eq_true_2 by done.
  rewrite !Hother.
  - f_equal. f_equal. f_equal.
    rewrite (offset_S _ _ _ Hk). unfold offset.
    rewrite (bind_patches_middle _ _ _ Hk) at 1.
    rewrite !length_app. lia.
  - apply Forall_forall. intros r' Hr' Heq. apply Hafter.
    apply list_elem_of_fmap. by exists r'.
  - apply Forall_forall. intros r' Hr' Heq. apply (Hbefore (mp_id r')).
    + apply list_elem_of_fmap. by exists r'.
    + rewrite Heq. apply elem_of_cons. by left.
Qed.

Lemma length_combined_fields results :
  length (MultiPatch.combined_fields results)
  = sum_list (length ∘ fields <$> results).
Proof.
  unfold MultiPatch.combined_fields. generalize results at 1. intros all.
  induction results as [|r results IH]; [done|].
  rewrite bind_cons, fmap_cons, length_app, IH. simpl. f_equal.
  induction (fields r) as [|f fs IHf]; [done|].
  rewrite bind_cons. simpl. by rewrite IHf.
Qed.

(** The combined fields are exactly the padded per-patch fields. *)
Lemma elem_of_combined_fields results F :
  NoDup (mp_id <$> results) →
  F ∈ MultiPatch.combined_fields results ↔
  ∃ k r f, results !! k = Some r ∧ f ∈ fields r ∧ F = padded results k f.
Proof.
  intros Hnd. unfold MultiPatch.combined_fields.
  rewrite list_elem_of_bind. split.
  - intros (r & (f & HF & Hf)%list_elem_of_bind & Hr).
    apply list_elem_of_lookup in Hr as [k Hk].
    apply list_elem_of_singleton in HF as ->.
    exists k, r, f. split_and!; try done. by apply combined_field_padded.
  - intros (k & r & f & Hk & Hf & ->). exists r. split.
    + apply list_elem_of_bind. exists f. split; [|done].
      apply list_elem_of_singleton. symmetry. by apply combined_field_padded.
    + by eapply list_elem_of_lookup_2.
Qed.

Lemma length_padded results k r f :
  results !! k = Some r → length f = length (patches r) →
  length (padded results k f) = length (results ≫= patches).
Proof.
  intros Hk Hf. unfold padded. rewrite !length_app, !length_replicate, Hf.
  pose proof (offset_S _ _ _ Hk). pose proof (offset_total results (S k)). lia.
Qed.

Lemma lookup_padded_own results k r f a :
  results !! k = Some r → padded results k f !! (offset results k + a)
                          = (f ++ replicate (length (results ≫= patches)
                                             - offset results (S k)) VNone) !! a.
Proof.
  intros Hk. unfold padded.
  rewrite lookup_app_r by (rewrite length_replicate; lia).
  rewrite length_replicate. f_equal. lia.
Qed.

Lemma lookup_padded_other results k r f j :
  results !! k = Some r → length f = length (patches r) →
  j < length (results ≫= patches) →
  ¬ (offset results k ≤ j < offset results k + length (patches r)) →
  padded results k f !! j = Some VNone.
Proof.
  intros Hk Hf Hj Hout. unfold padded.
  pose proof (offset_S _ _ _ Hk). pose proof (offset_total results (S k)).
  destruct (decide (j < offset results k)) as [Hlt|Hge].
  - rewrite lookup_app_l by (rewrite length_replicate; lia).
    by apply lookup_replicate_2.
  - rewrite lookup_app_r by (rewrite length_replicate; lia).
    rewrite length_replicate.
    rewrite lookup_app_r by lia. apply lookup_replicate_2. lia.
Qed.

End ranges.

(** ** What a successful [create] returns *)

Section create_result.

Import MultiPatch.

Variable SinglePatch_init :
  value → value → value → value → result (gmap string value).
Variable SinglePatch_create :
  gmap string value → value → value → value → list (string * value) →
  gmap string value * result single_patch_result.

Abbreviation create'' := (create SinglePatch_init SinglePatch_create).
Abbreviation per_patch_results' :=
  (per_patch_results SinglePatch_init SinglePatch_create).


End create_result.

(** ** The theorems on a concrete build *)



(** * Further properties of the builder *)

(** ** Broadcasting and the setters *)

Section more_setters.

Import MultiPatch.

Lemma set_deformation_functions_eq self v :
  set_deformation_functions self v
  = if Py.is_None v || Py.instance_of v cls_Multipatch
    then Return (<["_deformation_functions" := v]> self)
    else Raise (ValueError
           ("Argument deformation_functions must be None or an instance of "
            +:+ "<class 'splinepy.multipatch.Multipatch'>!")).
Proof. by destruct v. Qed.

Lemma set_tilings_eq self v :
  set_tilings self v
  = if Py.is_None v || Py.instance_of v cls_int || Py.instance_of v cls_list
    then Return (<["_tilings" := v]> self)
    else Raise (ValueError
           ("Argument tilings must be None or an instance of "
            +:+ "(<class 'int'>, <class 'list'>)!")).
Proof. by destruct v. Qed.

Lemma set_parametrization_functions_eq self v :
  set_parametrization_functions self v
  = Return (<["_parametrization_functions" := v]> self).
Proof.
  by apply (set_callable_accepted _ _ _ 3 "parametrization_function"); [|lia|].
Qed.

(** X1.  Broadcasting is idempotent: the list a broadcast returns, given
    back as the property, is returned as it is; in particular the explicit
    repetition of a value over the patches, which the diagnostic asks for,
    is taken as one entry per patch. *)
Theorem broadcast_idempotent (N : nat) (property : value) :
  CheckForListAndCreateOtherwise N
    (VList (CheckForListAndCreateOtherwise N property))
  = CheckForListAndCreateOtherwise N property
  ∧ CheckForListAndCreateOtherwise N (VList (replicate N property))
    = replicate N property.
Proof.
  split; apply broadcast_list; [apply broadcast_length|apply length_replicate].
Qed.

(** X2.  The setters of [deformation_functions] and [tilings] decide at the
    assignment: [None] and a [Multipatch], respectively [None], an integer
    (a [bool] counts as one) and a list, are stored; any other value raises
    the [ValueError] that names the property and the accepted classes. *)
Theorem validated_setters (self : gmap string value) (v : value) :
  set_deformation_functions self v
  = (if Py.is_None v || Py.instance_of v cls_Multipatch
     then Return (<["_deformation_functions" := v]> self)
     else Raise (ValueError
            ("Argument deformation_functions must be None or an instance of "
             +:+ "<class 'splinepy.multipatch.Multipatch'>!")))
  ∧ set_tilings self v
    = (if Py.is_None v || Py.instance_of v cls_int || Py.instance_of v cls_list
       then Return (<["_tilings" := v]> self)
       else Raise (ValueError
              ("Argument tilings must be None or an instance of "
               +:+ "(<class 'int'>, <class 'list'>)!")))
  ∧ (∀ b, set_tilings self (VBool b) = Return (<["_tilings" := VBool b]> self)).
Proof.
  split_and!; [apply set_deformation_functions_eq|apply set_tilings_eq|done].
Qed.

(** X3.  The [microtiles] setter stores every value: its class argument is
    [None], and the test never reaches [isinstance], which would reject that
    argument with a [TypeError].  [None] is stored by every setter, whatever
    the classes. *)
Theorem unvalidated_assignments (self : gmap string value) (v : value) :
  set_microtiles self v = Return (<["_microtiles" := v]> self)
  ∧ Py.isinstance v NoClass
    = Raise (TypeError
        "isinstance() arg 2 must be a type, a tuple of types, or a union")
  ∧ ∀ Classes number base,
      property_names !! number = Some base →
      _set_property self VNone Classes number
      = Return (<["_" +:+ base +:+ "s" := VNone]> self).
Proof.
  split_and!; [apply set_microtiles_accepted|done|].
  intros Classes number base H. by apply set_property_None.
Qed.

(** X4.  A value assigned through [_set_property] is read back under the
    attribute of that property, which then exists, and no other attribute of
    the builder changes. *)
Theorem set_property_round_trip
    (self self' : gmap string value) (v : value) (Classes : classinfo)
    (number : nat) :
  _set_property self v Classes number = Return self' →
  ∃ base,
    property_names !! number = Some base
    ∧ Py.getattr_default self' ("_" +:+ base +:+ "s") = v
    ∧ Py.hasattr self' ("_" +:+ base +:+ "s") = true
    ∧ ∀ name, name ≠ "_" +:+ base +:+ "s" → self' !! name = self !! name.
Proof.
  intros (base & Hn & ->)%set_property_Return. exists base.
  unfold Py.getattr_default, Py.hasattr. rewrite lookup_insert_eq.
  split_and!; try done.
  intros name Hne. by rewrite lookup_insert_ne.
Qed.

Lemma init_eq df t m p :
  __init__ df t m p
  = match (if Py.is_None df then Return ∅ else set_deformation_functions ∅ df)
    with
    | Raise e => Raise e
    | Return d0 =>
        match (if Py.is_None t then Return d0 else set_tilings d0 t) with
        | Raise e => Raise e
        | Return d1 =>
            let d2 := if Py.is_None m then d1 else <["_microtiles" := m]> d1 in
            Return (if Py.is_None p then d2
                    else <["_parametrization_functions" := p]> d2)
        end
    end.
Proof.
  unfold __init__, then_set.
  destruct (if Py.is_None df then _ else _) as [e|d0]; [done|].
  destruct (if Py.is_None t then _ else _) as [e|d1]; [done|].
  destruct (Py.is_None m), (Py.is_None p);
    by rewrite ?set_microtiles_accepted, ?set_parametrization_functions_eq.
Qed.

Lemma init_cases df t m p :
  __init__ df t m p
  = if negb (Py.is_None df || Py.instance_of df cls_Multipatch) then
      Raise (ValueError
        ("Argument deformation_functions must be None or an instance of "
         +:+ "<class 'splinepy.multipatch.Multipatch'>!"))
    else if negb (Py.is_None t || Py.instance_of t cls_int
                  || Py.instance_of t cls_list) then
      Raise (ValueError
        ("Argument tilings must be None or an instance of "
         +:+ "(<class 'int'>, <class 'list'>)!"))
    else
      Return
        (let d0 := if Py.is_None df then ∅
                   else <["_deformation_functions" := df]> ∅ in
         let d1 := if Py.is_None t then d0 else <["_tilings" := t]> d0 in
         let d2 := if Py.is_None m then d1 else <["_microtiles" := m]> d1 in
         if Py.is_None p then d2
         else <["_parametrization_functions" := p]> d2).
Proof.
  rewrite init_eq, set_deformation_functions_eq.
  destruct df; cbn [Py.is_None Py.instance_of orb negb];
    rewrite ?set_tilings_eq; by destruct t.
Qed.

(** X5.  The constructor returns a builder exactly when the deformation
    functions are [None] or a [Multipatch] and the tilings are [None], an
    integer or a list; otherwise it raises a [ValueError], the one about the
    deformation functions when both are wrong.  Microtiles and
    parametrization functions never make it fail. *)
Theorem init_succeeds_iff (df t m p : value) :
  ((∃ d, __init__ df t m p = Return d) ↔
   (Py.is_None df || Py.instance_of df cls_Multipatch)
   && (Py.is_None t || Py.instance_of t cls_int || Py.instance_of t cls_list)
   = true)
  ∧ (Py.is_None df || Py.instance_of df cls_Multipatch = false →
     __init__ df t m p
     = Raise (ValueError
         ("Argument deformation_functions must be None or an instance of "
          +:+ "<class 'splinepy.multipatch.Multipatch'>!")))
  ∧ (∀ e, __init__ df t m p = Raise e → ∃ msg, e = ValueError msg).
Proof.
  rewrite init_cases.
  set (okd := Py.is_None df || Py.instance_of df cls_Multipatch).
  set (okt := Py.is_None t || Py.instance_of t cls_int
              || Py.instance_of t cls_list).
  destruct okd, okt; simpl; split_and!; try done;
    try (split; [by intros [d H]|done]);
    try (split; [done|intros _; eexists; reflexivity]);
    intros e [= <-]; eauto.
Qed.

(** X6.  A constructed builder reads back its four arguments through the
    getters, has no parameter sensitivity functions, and holds no attribute
    besides the four it was given. *)
Theorem init_round_trip (df t m p : value) (d : gmap string value) :
  __init__ df t m p = Return d →
  deformation_functions d = df
  ∧ tilings d = t
  ∧ microtiles d = m
  ∧ parametrization_functions d = p
  ∧ parameter_sensitivity_functions d = VNone
  ∧ ∀ name, is_Some (d !! name) →
      name ∈ ["_deformation_functions"; "_tilings"; "_microtiles";
              "_parametrization_functions"].
Proof.
  intros H.
  pose proof (multi_patch_init_Return _ _ _ _ _ H) as (H0 & H1 & H2 & H3 & H4).
  split_and!; try done.
  - unfold parameter_sensitivity_functions, Py.getattr_default. by rewrite H4.
  - rewrite init_cases in H.
    destruct (negb (Py.is_None df || _)); [done|].
    destruct (negb (Py.is_None t || _ || _)); [done|].
    injection H as <-. intros name [x Hx].
    destruct (Py.is_None df), (Py.is_None t), (Py.is_None m), (Py.is_None p);
      simpl in Hx;
      repeat match goal with
             | H : <[_:=_]> _ !! _ = Some _ |- _ =>
                 apply lookup_insert_Some in H as [[<- _]|[_ H]];
                 [set_solver|]
             | H : ∅ !! _ = Some _ |- _ => by rewrite lookup_empty in H
             end.
Qed.

End more_setters.

Lemma set_property_round_trip_witness :
  ∃ base,
    MultiPatch.property_names !! 1 = Some base
    ∧ Py.getattr_default (<["_tilings" := VInt 2]> ∅) ("_" +:+ base +:+ "s")
      = VInt 2
    ∧ Py.hasattr (<["_tilings" := VInt 2]> ∅) ("_" +:+ base +:+ "s") = true
    ∧ Forall (λ name, name ≠ "_" +:+ base +:+ "s" →
                (<["_tilings" := VInt 2]> ∅ : gmap string value) !! name
                = (∅ : gmap string value) !! name)
        ["_microtiles"; "_tilings"].
Proof.
  destruct (set_property_round_trip ∅ (<["_tilings" := VInt 2]> ∅) (VInt 2)
              (ClassTuple [cls_int; cls_list]) 1)
    as (base & H1 & H2 & H3 & H4).
  - reflexivity.
  - exists base. split_and!; try done.
    apply Forall_forall. intros name _. apply H4.
Defined.

Lemma init_round_trip_witness :
  MultiPatch.tilings
    (<["_microtiles" := Sample.tile]>
     (<["_tilings" := VInt 2]>
      (<["_deformation_functions" := Sample.two_patches]> ∅)))
  = VInt 2.
Proof.
  destruct (init_round_trip Sample.two_patches (VInt 2) Sample.tile VNone
              (<["_microtiles" := Sample.tile]>
               (<["_tilings" := VInt 2]>
                (<["_deformation_functions" := Sample.two_patches]> ∅))))
    as (_ & H & _).
  - reflexivity.
  - exact H.
Defined.

(** ** Running [create] forwards *)

Section create_forward.

Import MultiPatch.

Variable SinglePatch_init :
  value → value → value → value → result (gmap string value).
Variable SinglePatch_create :
  gmap string value → value → value → value → list (string * value) →
  gmap string value * result single_patch_result.

Abbreviation create_f := (create SinglePatch_init SinglePatch_create).
Abbreviation create_patches_f :=
  (create_patches SinglePatch_init SinglePatch_create).

Lemma mapM_new_single_patch_total args w :
  (∀ arg, arg ∈ args → ∃ d, init_of SinglePatch_init arg = Return d) →
  ∃ w1 locs,
    mapM (new_single_patch SinglePatch_init) args w = (w1, Return locs).
Proof.
  revert w. induction args as [|arg args IH]; intros w Hall.
  - by exists w, [].
  - destruct (Hall arg) as [d Hd]; [by left|].
    set (wa := World (w_self w) (<[w_next w := d]> (w_heap w)) (S (w_next w))
                 (w_log w)).
    destruct (IH wa) as (w1 & locs & Hrun).
    { intros arg' Hin. apply Hall. by right. }
    exists w1, (w_next w :: locs). simpl.
    assert (new_single_patch SinglePatch_init arg w = (wa, Return (w_next w)))
      as Hnew.
    { destruct arg as (patch & tiling & microtile & pf).
      unfold init_of in Hd. simpl in Hd.
      unfold new_single_patch, bind, lift, new_id. simpl. by rewrite Hd. }
    rewrite (bind_run _ _ _ _ _ Hnew), (bind_run _ _ _ _ _ Hrun). done.
Qed.

Lemma mapM_single_patch_create_run kw
    (args : list (loc * (value * (value * value)))) rs w :
  NoDup args.*1 →
  Forall2 (λ la r, outcome SinglePatch_create kw
                     (default ∅ (w_heap w !! la.1)) la.2 = Return r) args rs →
  ∃ w',
    mapM (single_patch_create SinglePatch_create kw) args w
    = (w', Return (values_from (w_next w) rs))
    ∧ w_next w' = w_next w + length (objects_from (w_next w) rs).
Proof.
  intros Hnd Hall. revert w Hnd Hall.
  induction args as [|[l a] args IH] in rs |- *; intros w Hnd Hall.
  - apply Forall2_nil_inv_l in Hall as ->. exists w. split; [done|]. simpl. lia.
  - apply Forall2_cons_inv_l in Hall as (r & rs' & Hr & Hall & ->).
    rewrite fmap_cons, NoDup_cons in Hnd. destruct Hnd as [Hl Hnd].
    simpl in Hr. destruct a as (cf & ksw & ms).
    unfold outcome in Hr. simpl in Hr.
    destruct (SinglePatch_create (default ∅ (w_heap w !! l)) cf ksw ms kw)
      as [d r'] eqn:E. simpl in Hr. subst r'.
    set (w1 := World (w_self w) (<[l := d]> (w_heap w)) (w_next w) (w_log w)).
    assert (∀ wa, w_heap wa = w_heap w1 →
              Forall2 (λ la r, outcome SinglePatch_create kw
                                 (default ∅ (w_heap wa !! la.1)) la.2
                               = Return r) args rs') as Htail.
    { intros wa Hheap. apply Forall2_same_length_lookup.
      apply Forall2_same_length_lookup in Hall as [Hlen Hall].
      split; [done|]. intros i [l' a'] r' Hi Hr'.
      specialize (Hall _ _ _ Hi Hr'). simpl in *. rewrite Hheap. simpl.
      rewrite lookup_insert_ne; [done|]. intros ->. apply Hl.
      apply list_elem_of_fmap. exists (l', a'). split; [done|].
      by eapply list_elem_of_lookup_2. }
    destruct r as [|tiles sens].
    + destruct (IH rs' w1 Hnd (Htail w1 eq_refl)) as (w' & Hrun & Hn).
      exists w'. split; [|done]. simpl.
      assert (single_patch_create SinglePatch_create kw (l, (cf, (ksw, ms))) w
              = (w1, Return VNone)) as H1
        by (unfold single_patch_create; by rewrite E).
      by rewrite (bind_run _ _ _ _ _ H1), (bind_run _ _ _ _ _ Hrun).
    + set (w2 := World (w_self w1) (w_heap w1) (S (w_next w1)) (w_log w1)).
      destruct (IH rs' w2 Hnd (Htail w2 eq_refl)) as (w' & Hrun & Hn).
      exists w'. split; [|simpl in *; lia]. simpl.
      assert (single_patch_create SinglePatch_create kw (l, (cf, (ksw, ms))) w
              = (w2, Return (VMultipatch (mkMultipatch (w_next w) tiles sens))))
        as H1 by (unfold single_patch_create; by rewrite E).
      by rewrite (bind_run _ _ _ _ _ H1), (bind_run _ _ _ _ _ Hrun).
Qed.

Lemma lookup_zip3 {A B C D} (l1 : list A) (l2 : list B) (l3 : list C)
    (l4 : list D) k a b c d :
  l1 !! k = Some a → l2 !! k = Some b → l3 !! k = Some c → l4 !! k = Some d →
  zip l1 (zip l2 (zip l3 l4)) !! k = Some (a, (b, (c, d))).
Proof.
  intros H1 H2 H3 H4.
  apply lookup_zip_with_Some. eexists _, _. split_and!; [done..|].
  apply lookup_zip_with_Some. eexists _, _. split_and!; [done..|].
  apply lookup_zip_with_Some. eauto.
Qed.

Lemma lookup_zip3_inv {A B C D} (l1 : list A) (l2 : list B) (l3 : list C)
    (l4 : list D) k a b c d :
  zip l1 (zip l2 (zip l3 l4)) !! k = Some (a, (b, (c, d))) →
  l1 !! k = Some a ∧ l2 !! k = Some b ∧ l3 !! k = Some c ∧ l4 !! k = Some d.
Proof.
  intros (? & ? & [= <- <-] & H1 & H)%lookup_zip_with_Some.
  apply lookup_zip_with_Some in H as (? & ? & [= <- <-] & H2 & H).
  by apply lookup_zip_with_Some in H as (? & ? & [= <- <-] & H3 & H4).
Qed.

(** Lines 280-329 when no constructor and no builder raises. *)
Lemma create_patches_run outer tilings microtiles pfs psfs cf ksw ms kw w rs :
  w_self w !! "_parametrization_functions" = Some pfs →
  w_self w !! "_parameter_sensitivity_functions" = Some psfs →
  per_patch_outcomes SinglePatch_init SinglePatch_create kw outer tilings
    microtiles pfs psfs cf ksw ms rs →
  ∃ w1,
    create_patches_f (VMultipatch outer) tilings microtiles cf ksw ms kw w
    = (w1, Return (CheckForListAndCreateOtherwise (length (patches outer)) ms,
                   CheckForListAndCreateOtherwise (length (patches outer)) psfs,
                   values_from (w_next w + length (patches outer)) rs))
    ∧ w_self w1
      = <["_microstructures" :=
            VList (VSinglePatch <$> seq (w_next w) (length (patches outer)))]>
          (w_self w)
    ∧ w_next w1
      = w_next w + length (patches outer)
        + length (objects_from (w_next w + length (patches outer)) rs)
    ∧ w_log w1
      = w_log w ++ diagnostics (length (patches outer)) tilings "tiling"
        ++ diagnostics (length (patches outer)) microtiles "microtile"
        ++ diagnostics (length (patches outer)) psfs
             "parameter_sensitivity_function".
Proof.
  intros Hpfs Hpsfs [Lrs Hper]. unfold create_patches.
  set (N := length (patches outer)) in *.
  set (T := CheckForListAndCreateOtherwise N tilings) in *.
  set (Mi := CheckForListAndCreateOtherwise N microtiles) in *.
  set (P := CheckForListAndCreateOtherwise N pfs) in *.
  set (PS := CheckForListAndCreateOtherwise N psfs) in *.
  set (CF := CheckForListAndCreateOtherwise N cf) in *.
  set (KSW := CheckForListAndCreateOtherwise N ksw) in *.
  set (MS := CheckForListAndCreateOtherwise N ms) in *.
  assert (length T = N ∧ length Mi = N ∧ length P = N ∧ length PS = N
          ∧ length CF = N ∧ length KSW = N ∧ length MS = N)
    as (LT & LMi & LP & LPS & LCF & LKSW & LMS)
    by (split_and!; apply broadcast_length).
  assert (∀ k, k < N →
            ∃ patch t m pf psf cf_k ksw_k ms_k r d,
              patches outer !! k = Some patch ∧ T !! k = Some t
              ∧ Mi !! k = Some m ∧ P !! k = Some pf ∧ PS !! k = Some psf
              ∧ CF !! k = Some cf_k ∧ KSW !! k = Some ksw_k
              ∧ MS !! k = Some ms_k ∧ rs !! k = Some r
              ∧ SinglePatch_init patch t m pf = Return d
              ∧ (SinglePatch_create
                   (<["_parameter_sensitivity_function" := psf]> d)
                   cf_k ksw_k ms_k kw).2 = Return r) as Hidx.
  { intros k Hk.
    destruct (lookup_lt_is_Some_2 (patches outer) k) as [patch Hpatch]; [done|].
    destruct (lookup_lt_is_Some_2 T k) as [t Ht]; [lia|].
    destruct (lookup_lt_is_Some_2 Mi k) as [m Hm]; [lia|].
    destruct (lookup_lt_is_Some_2 P k) as [pf Hpf]; [lia|].
    destruct (lookup_lt_is_Some_2 PS k) as [psf Hpsf]; [lia|].
    destruct (lookup_lt_is_Some_2 CF k) as [cf_k Hcf]; [lia|].
    destruct (lookup_lt_is_Some_2 KSW k) as [ksw_k Hksw]; [lia|].
    destruct (lookup_lt_is_Some_2 MS k) as [ms_k Hms]; [lia|].
    destruct (Hper k patch t m pf psf cf_k ksw_k ms_k) as (r & Hr & Hrun);
      try done.
    unfold single_patch_run in Hrun.
    destruct (SinglePatch_init patch t m pf) as [|d] eqn:Hd; [done|].
    exists patch, t, m, pf, psf, cf_k, ksw_k, ms_k, r, d. by split_and!. }
  erewrite (bind_run (lift _)); [|reflexivity].
  erewrite (bind_run (getattr_self _));
    [|unfold getattr_self, Py.getattr; by rewrite Hpfs].
  erewrite (bind_run (getattr_self _));
    [|unfold getattr_self, Py.getattr; by rewrite Hpsfs].
  rewrite (bind_run _ _ _ _ _ (CheckForAmbiguity_run N tilings "tiling" w)).
  rewrite (bind_run _ _ _ _ _ (CheckForAmbiguity_run N microtiles "microtile" _)).
  cbn [w_self w_heap w_next w_log]. fold T Mi.
  change (CheckForListAndCreateOtherwise (length (patches outer)) pfs) with P.
  change (CheckForListAndCreateOtherwise (length (patches outer)) cf) with CF.
  change (CheckForListAndCreateOtherwise (length (patches outer)) ksw)
    with KSW.
  change (CheckForListAndCreateOtherwise (length (patches outer)) ms) with MS.
  match goal with
  | |- context [bind (mapM (new_single_patch SinglePatch_init) ?args) _ ?wa] =>
      destruct (mapM_new_single_patch_total args wa) as (w1 & locs & Hlocs)
  end.
  { intros (patch & t & m & pf) (k & Hk)%list_elem_of_lookup.
    pose proof (lookup_lt_Some _ _ _ Hk) as Hlt.
    rewrite !length_zip_with in Hlt.
    apply lookup_zip3_inv in Hk as (Hk1 & Hk2 & Hk3 & Hk4).
    destruct (Hidx k) as (patch' & t' & m' & pf' & psf & cf_k & ksw_k & ms_k
                          & r & d & H1 & H2 & H3 & H4 & _ & _ & _ & _ & _
                          & Hd & _); [lia|].
    exists d. unfold init_of. simpl. congruence. }
  rewrite (bind_run _ _ _ _ _ Hlocs).
  apply mapM_new_single_patch in Hlocs as (-> & Hn1 & Hs1 & Hg1 & _ & Hk1).
  cbn [w_self w_heap w_next w_log] in *.
  rewrite !length_zip_with, LT, LMi, LP in *. fold N in Hn1 |- *.
  replace (N `min` (N `min` (N `min` N))) with N in * by lia.
  set (locs := seq (w_next w) N) in *.
  assert (length locs = N) as Llocs by apply length_seq.
  erewrite (bind_run (setattr_self _ _)); [|reflexivity].
  rewrite (bind_run _ _ _ _ _
             (CheckForAmbiguity_run N psfs "parameter_sensitivity_function" _)).
  cbn [w_self w_heap w_next w_log]. fold PS.
  match goal with
  | |- context [bind (mapM set_parameter_sensitivity_function ?ps) _ ?wb] =>
      destruct (mapM_set_parameter_sensitivity_function ps wb)
        as (w2 & us & Hrun & Hs2 & Hn2 & Hg2 & _ & Hin2)
  end.
  rewrite (bind_run _ _ _ _ _ Hrun).
  cbn [w_self w_heap w_next w_log] in *.
  rewrite fst_zip in Hin2 by lia.
  specialize (Hin2 (NoDup_seq _ _)).
  fold CF KSW MS.
  destruct (mapM_single_patch_create_run kw
              (zip locs (zip CF (zip KSW MS))) rs w2) as (w3 & Hrun3 & Hn3).
  { rewrite fst_zip; [apply NoDup_seq|rewrite !length_zip_with; lia]. }
  { apply Forall2_same_length_lookup. split.
    { rewrite !length_zip_with. lia. }
    intros k (l & cf_k & ksw_k & ms_k) r Hk Hr.
    apply lookup_zip3_inv in Hk as (Hl & Hcf & Hksw & Hms).
    pose proof (lookup_lt_Some _ _ _ Hr) as Hlt.
    destruct (Hidx k) as (patch & t & m & pf & psf & cf' & ksw' & ms' & r' & d
                          & H1 & H2 & H3 & H4 & H5 & H6 & H7 & H8 & H9 & Hd
                          & Hout); [lia|].
    assert (l = w_next w + k) as ->
      by (apply lookup_seq in Hl as [-> _]; done).
    destruct (Hk1 k (patch, (t, (m, pf)))) as (d' & Hd' & Hheap1).
    { by apply lookup_zip3. }
    unfold init_of in Hd'. simpl in Hd'.
    assert (d' = d) as -> by congruence.
    specialize (Hin2 (w_next w + k) psf). rewrite Hheap1 in Hin2.
    simpl. rewrite Hin2.
    2:{ apply list_elem_of_lookup. exists k.
        apply lookup_zip_with_Some. eauto. }
    unfold outcome. simpl.
    assert (cf_k = cf' ∧ ksw_k = ksw' ∧ ms_k = ms' ∧ r = r')
      as (-> & -> & -> & ->) by (split_and!; congruence).
    done. }
  rewrite (bind_run _ _ _ _ _ Hrun3).
  exists w3. unfold ret.
  apply mapM_single_patch_create in Hrun3
    as (_ & Hs3 & Hg3 & _);
    [|rewrite fst_zip; [apply NoDup_seq|rewrite !length_zip_with; lia]].
  split_and!.
  - by rewrite Hn2, Hn1.
  - by rewrite Hs3, Hs2, Hs1.
  - by rewrite Hn3, Hn2, Hn1.
  - rewrite Hg3, Hg2, Hg1. by rewrite <- !app_assoc.
Qed.

Lemma values_from_objects n rs :
  Forall (λ r, r ≠ NoResult) rs →
  values_from n rs = VMultipatch <$> objects_from n rs
  ∧ length (objects_from n rs) = length rs.
Proof.
  intros H. revert n. induction H as [|r rs Hr H IH]; intros n; [done|].
  destruct r as [|tiles sens]; [done|]. simpl.
  destruct (IH (S n)) as [-> ->]. done.
Qed.

Lemma mapR_values_from_None n rs :
  NoResult ∈ rs →
  mapR Py.as_Multipatch (values_from n rs) = Raise (AttributeError "patches").
Proof.
  revert n. induction rs as [|r rs IH]; intros n Hin.
  - by apply elem_of_nil in Hin.
  - destruct r as [|tiles sens]; [done|]. simpl.
    apply elem_of_cons in Hin as [Hin|Hin]; [done|]. by rewrite IH.
Qed.

Lemma mapR_Multipatch (objs : list (Multipatch value)) :
  mapR Py.as_Multipatch (VMultipatch <$> objs) = Return objs.
Proof.
  induction objs as [|o objs IH]; [done|].
  rewrite fmap_cons. cbn [mapR Py.as_Multipatch]. by rewrite IH.
Qed.

Lemma broadcast_nil N property :
  CheckForListAndCreateOtherwise N property = [] ↔ N = 0.
Proof.
  pose proof (broadcast_length N property) as H. split.
  - intros E. by rewrite E in H.
  - intros ->. by destruct (CheckForListAndCreateOtherwise 0 property).
Qed.

(** The test of lines 334-336 on broadcast arguments. *)
Lemma add_fields_guard_eq N ms psfs :
  negb (bool_decide (CheckForListAndCreateOtherwise N ms = []))
  || negb (forallb Py.is_None (CheckForListAndCreateOtherwise N psfs))
  = bool_decide (0 < N).
Proof.
  destruct (decide (N = 0)) as [->|Hne].
  - assert (CheckForListAndCreateOtherwise 0 ms = []) as ->
      by by apply broadcast_nil.
    assert (CheckForListAndCreateOtherwise 0 psfs = []) as ->
      by by apply broadcast_nil.
    done.
  - rewrite (bool_decide_eq_false_2 (_ = [])) by (by rewrite broadcast_nil).
    by rewrite bool_decide_eq_true_2 by lia.
Qed.

(** The assembly of as many results as there are patches. *)
Lemma assemble_broadcast_run (N : nat) (ms psfs : value)
    (objs : list (Multipatch value)) (w : world) :
  length objs = N →
  assemble (CheckForListAndCreateOtherwise N ms)
    (CheckForListAndCreateOtherwise N psfs) (VMultipatch <$> objs) w
  = (World (w_self w) (w_heap w) (S (w_next w)) (w_log w),
     Return (VMultipatch
               (mkMultipatch (w_next w) (objs ≫= patches)
                  (combined_fields objs)))).
Proof.
  intros Hlen. unfold assemble. rewrite mapR_Multipatch.
  unfold bind, lift, new_id, ret, add_fields. simpl. do 3 f_equal.
  rewrite add_fields_guard_eq. case_bool_decide; [done|].
  destruct objs; [done|simpl in Hlen; lia].
Qed.

(** X7.  The guard of lines 333-336 depends on the number of outer patches
    alone: the broadcast [macro_sensitivities] is a list, true as soon as
    it is non-empty, so with at least one patch [add_fields] receives the
    combined fields whatever flags and sensitivity functions were given,
    and with no patch it is not called. *)
Theorem assemble_guard (N : nat) (ms psfs : value)
    (objs : list (Multipatch value)) (w : world) :
  assemble (CheckForListAndCreateOtherwise N ms)
    (CheckForListAndCreateOtherwise N psfs) (VMultipatch <$> objs) w
  = (World (w_self w) (w_heap w) (S (w_next w)) (w_log w),
     Return (VMultipatch
               (mkMultipatch (w_next w) (objs ≫= patches)
                  (if bool_decide (0 < N) then combined_fields objs
                   else [])))).
Proof.
  unfold assemble. rewrite mapR_Multipatch.
  unfold bind, lift, new_id, ret, add_fields. simpl. do 3 f_equal.
  rewrite add_fields_guard_eq. by case_bool_decide.
Qed.

(** [create] up to the assembly, when no constructor and no builder
    raises. *)
Lemma create_run cf ksw ms kw w outer tilings microtiles pfs psfs rs :
  configuration_of w outer tilings microtiles pfs psfs →
  Py.is_None tilings = false → Py.is_None microtiles = false →
  per_patch_outcomes SinglePatch_init SinglePatch_create kw outer tilings
    microtiles pfs psfs cf ksw ms rs →
  ∃ w1,
    create_f cf ksw ms kw w
    = assemble (CheckForListAndCreateOtherwise (length (patches outer)) ms)
        (CheckForListAndCreateOtherwise (length (patches outer)) psfs)
        (values_from (w_next w + length (patches outer)) rs) w1
    ∧ w_self w1
      = <["_microstructures" :=
            VList (VSinglePatch <$> seq (w_next w) (length (patches outer)))]>
          (w_self w)
    ∧ w_next w1
      = w_next w + length (patches outer)
        + length (objects_from (w_next w + length (patches outer)) rs)
    ∧ w_log w1
      = w_log w ++ diagnostics (length (patches outer)) tilings "tiling"
        ++ diagnostics (length (patches outer)) microtiles "microtile"
        ++ diagnostics (length (patches outer)) psfs
             "parameter_sensitivity_function".
Proof.
  intros (Hdf & Ht & Hm & Hpfs & Hpsfs) Nt Nm Hper.
  destruct (create_patches_run outer tilings microtiles pfs psfs cf ksw ms kw
              w rs Hpfs Hpsfs Hper) as (w1 & Hrun & Hs & Hn & Hg).
  exists w1. split_and!; try done.
  unfold create.
  erewrite (bind_run (getattr_self _));
    [|unfold getattr_self, Py.getattr; by rewrite Hdf].
  erewrite (bind_run (getattr_self _));
    [|unfold getattr_self, Py.getattr; by rewrite Ht].
  erewrite (bind_run (getattr_self _));
    [|unfold getattr_self, Py.getattr; by rewrite Hm].
  rewrite Nt, Nm. simpl. by rewrite (bind_run _ _ _ _ _ Hrun).
Qed.

(** X8.  When the five attributes are assigned, the required ones not to
    [None], and every single-patch builder is constructed and returns a
    result, [create] returns a new multi-patch: its patches are the tiles
    of the per-patch results in patch order and its fields their combined
    fields.  The builder then holds one single-patch builder per outer patch
    in [_microstructures], and has logged the ambiguity diagnostics and
    nothing else. *)
Theorem create_returns
    (cf ksw ms : value) (kw : list (string * value)) (w : world)
    (outer : Multipatch value) (tilings microtiles pfs psfs : value)
    (rs : list single_patch_result) :
  configuration_of w outer tilings microtiles pfs psfs →
  Py.is_None tilings = false → Py.is_None microtiles = false →
  per_patch_outcomes SinglePatch_init SinglePatch_create kw outer tilings
    microtiles pfs psfs cf ksw ms rs →
  Forall (λ r, r ≠ NoResult) rs →
  ∃ w',
    create_f cf ksw ms kw w
    = (w', Return (VMultipatch
         (mkMultipatch (w_next w + 2 * length (patches outer))
            (objects_from (w_next w + length (patches outer)) rs ≫= patches)
            (combined_fields
               (objects_from (w_next w + length (patches outer)) rs)))))
    ∧ length (objects_from (w_next w + length (patches outer)) rs)
      = length (patches outer)
    ∧ w_self w'
      = <["_microstructures" :=
            VList (VSinglePatch <$> seq (w_next w) (length (patches outer)))]>
          (w_self w)
    ∧ w_next w' = S (w_next w + 2 * length (patches outer))
    ∧ w_log w'
      = w_log w ++ diagnostics (length (patches outer)) tilings "tiling"
        ++ diagnostics (length (patches outer)) microtiles "microtile"
        ++ diagnostics (length (patches outer)) psfs
             "parameter_sensitivity_function".
Proof.
  intros Hc Nt Nm Hper Hall.
  destruct (create_run cf ksw ms kw w outer tilings microtiles pfs psfs rs
              Hc Nt Nm Hper) as (w1 & Hrun & Hs & Hn & Hg).
  destruct (values_from_objects (w_next w + length (patches outer)) rs Hall)
    as [Hv Hlen].
  destruct Hper as [Lrs _]. rewrite Lrs in Hlen.
  rewrite Hrun, Hv, (assemble_broadcast_run _ _ _ _ _ Hlen).
  rewrite Hlen in Hn.
  exists (World (w_self w1) (w_heap w1) (S (w_next w1)) (w_log w1)).
  split_and!; [|done|exact Hs|simpl; lia|exact Hg].
  do 3 f_equal. f_equal. lia.
Qed.

(** X9.  When no constructor and no builder raises but one builder returns
    [None] -- its own configuration is incomplete -- [create] raises the
    [AttributeError] of [None.patches], after every builder has been
    constructed, stored in [_microstructures] and run. *)
Theorem create_with_missing_result
    (cf ksw ms : value) (kw : list (string * value)) (w : world)
    (outer : Multipatch value) (tilings microtiles pfs psfs : value)
    (rs : list single_patch_result) :
  configuration_of w outer tilings microtiles pfs psfs →
  Py.is_None tilings = false → Py.is_None microtiles = false →
  per_patch_outcomes SinglePatch_init SinglePatch_create kw outer tilings
    microtiles pfs psfs cf ksw ms rs →
  NoResult ∈ rs →
  ∃ w',
    create_f cf ksw ms kw w = (w', Raise (AttributeError "patches"))
    ∧ w_self w'
      = <["_microstructures" :=
            VList (VSinglePatch <$> seq (w_next w) (length (patches outer)))]>
          (w_self w).
Proof.
  intros Hc Nt Nm Hper Hin.
  destruct (create_run cf ksw ms kw w outer tilings microtiles pfs psfs rs
              Hc Nt Nm Hper) as (w1 & Hrun & Hs & Hn & Hg).
  exists w1. split; [|done]. rewrite Hrun. unfold assemble.
  rewrite (mapR_values_from_None _ _ Hin). done.
Qed.

(** X10.  On a multi-patch without outer patches [create] constructs no
    builder and returns a new, empty multi-patch without fields;
    [_microstructures] becomes the empty list. *)
Theorem create_without_patches
    (cf ksw ms : value) (kw : list (string * value)) (w : world)
    (outer : Multipatch value) (tilings microtiles pfs psfs : value) :
  configuration_of w outer tilings microtiles pfs psfs →
  Py.is_None tilings = false → Py.is_None microtiles = false →
  patches outer = [] →
  ∃ w',
    create_f cf ksw ms kw w
    = (w', Return (VMultipatch (mkMultipatch (w_next w) [] [])))
    ∧ w_self w' = <["_microstructures" := VList []]> (w_self w)
    ∧ w_next w' = S (w_next w).
Proof.
  intros Hc Nt Nm Hnil.
  destruct (create_run cf ksw ms kw w outer tilings microtiles pfs psfs []
              Hc Nt Nm) as (w1 & Hrun & Hs & Hn & Hg).
  { split; [by rewrite Hnil|]. intros k patch ? ? ? ? ? ? ? Hk.
    by rewrite Hnil in Hk. }
  rewrite Hnil in *. simpl in *.
  rewrite Hrun. change (@nil value) with (VMultipatch <$> []) at 1.
  rewrite (assemble_broadcast_run 0 ms psfs [] w1 eq_refl).
  exists (World (w_self w1) (w_heap w1) (S (w_next w1)) (w_log w1)).
  split_and!; [|done|simpl; lia].
  do 3 f_equal. f_equal. lia.
Qed.

(** ** The combined collection and its fields *)

(** The objects a run of builders that all return a result evaluates to:
    one per builder, holding what it returned, with identities in call
    order. *)
Lemma objects_from_built n rs :
  Forall (λ r, r ≠ NoResult) rs →
  Forall2 (λ r res, r = Built (patches res) (fields res)) rs
    (objects_from n rs)
  ∧ mp_id <$> objects_from n rs = seq n (length rs).
Proof.
  intros Hall. revert n.
  induction Hall as [|r rs Hr Hall IH]; intros n; [done|].
  destruct r as [|tiles sensitivities]; [done|].
  destruct (IH (S n)) as [H1 H2]. cbn [objects_from].
  split; [by constructor|]. by rewrite fmap_cons, H2.
Qed.

(** [create] on builders that all return a result. *)
Lemma create_built cf ksw ms kw w outer tilings microtiles pfs psfs rs :
  configuration_of w outer tilings microtiles pfs psfs →
  Py.is_None tilings = false → Py.is_None microtiles = false →
  per_patch_outcomes SinglePatch_init SinglePatch_create kw outer tilings
    microtiles pfs psfs cf ksw ms rs →
  Forall (λ r, r ≠ NoResult) rs →
  ∃ w' i,
    create_f cf ksw ms kw w
    = (w', Return (VMultipatch
         (mkMultipatch i
            (objects_from (w_next w + length (patches outer)) rs ≫= patches)
            (combined_fields
               (objects_from (w_next w + length (patches outer)) rs))))).
Proof.
  intros Hc Nt Nm Hper Hall.
  destruct (create_run cf ksw ms kw w outer tilings microtiles pfs psfs rs
              Hc Nt Nm Hper) as (w1 & Hrun & _).
  destruct (values_from_objects (w_next w + length (patches outer)) rs Hall)
    as [Hv Hlen].
  destruct Hper as [Lrs _]. rewrite Lrs in Hlen.
  rewrite Hrun, Hv, (assemble_broadcast_run _ _ _ _ _ Hlen). eauto.
Qed.

(** C2.  When every single-patch builder is constructed and returns a
    result, [create] returns a multi-patch whose patches are the
    concatenation, in ascending patch order, of the patches the builders
    returned: the length is the sum of the per-patch lengths, tile [a] of
    patch [i] sits at index [offset i + a], and every tile of an earlier
    patch comes before every tile of a later one. *)
Theorem create_concatenates_patches
    (cf ksw ms : value) (kw : list (string * value)) (w : world)
    (outer : Multipatch value) (tilings microtiles pfs psfs : value)
    (rs : list single_patch_result) :
  configuration_of w outer tilings microtiles pfs psfs →
  Py.is_None tilings = false → Py.is_None microtiles = false →
  per_patch_outcomes SinglePatch_init SinglePatch_create kw outer tilings
    microtiles pfs psfs cf ksw ms rs →
  Forall (λ r, r ≠ NoResult) rs →
  ∃ w' mp results,
    create_f cf ksw ms kw w = (w', Return (VMultipatch mp))
    ∧ Forall2 (λ r res, r = Built (patches res) (fields res)) rs results
    ∧ patches mp = concat (patches <$> results)
    ∧ length (patches mp) = sum_list (length ∘ patches <$> results)
    ∧ ∀ i j ri rj a b,
        i < j → results !! i = Some ri → results !! j = Some rj →
        a < length (patches ri) → b < length (patches rj) →
        patches mp !! (offset results i + a) = patches ri !! a
        ∧ patches mp !! (offset results j + b) = patches rj !! b
        ∧ offset results i + a < offset results j + b.
Proof.
  intros Hc Nt Nm Hper Hall.
  destruct (create_built cf ksw ms kw w outer tilings microtiles pfs psfs rs
              Hc Nt Nm Hper Hall) as (w' & i & Hrun).
  destruct (objects_from_built (w_next w + length (patches outer)) rs Hall)
    as [Hbuilt _].
  set (results := objects_from (w_next w + length (patches outer)) rs) in *.
  exists w', (mkMultipatch i (results ≫= patches) (combined_fields results)),
    results.
  cbn [patches]. split_and!; [done|done|apply bind_concat
                             |apply length_bind_patches|].
  intros a b ra rb x y Hab Ha Hb Hx Hy. split_and!.
  - by apply lookup_bind_patches.
  - by apply lookup_bind_patches.
  - by eapply ranges_ordered.
Qed.

(** C1.  When every single-patch builder is constructed and returns a
    result whose sensitivity fields are as long as its patch list, [create]
    returns a multi-patch whose fields are the per-patch fields, each padded
    to the combined length: the field of patch [k] keeps its entries on the
    index range of patch [k] and is [None] on the range of every other
    patch; on the range of a patch without sensitivity data every field is
    [None]. *)
Theorem create_pads_sensitivity_fields
    (cf ksw ms : value) (kw : list (string * value)) (w : world)
    (outer : Multipatch value) (tilings microtiles pfs psfs : value)
    (rs : list single_patch_result) :
  configuration_of w outer tilings microtiles pfs psfs →
  Py.is_None tilings = false → Py.is_None microtiles = false →
  per_patch_outcomes SinglePatch_init SinglePatch_create kw outer tilings
    microtiles pfs psfs cf ksw ms rs →
  Forall (λ r, r ≠ NoResult) rs →
  Forall aligned rs →
  ∃ w' mp results,
    create_f cf ksw ms kw w = (w', Return (VMultipatch mp))
    ∧ Forall2 (λ r res, r = Built (patches res) (fields res)) rs results
    ∧ patches mp = concat (patches <$> results)
    ∧ length (fields mp) = sum_list (length ∘ fields <$> results)
    ∧ (∀ F, F ∈ fields mp ↔
         ∃ k r f, results !! k = Some r ∧ f ∈ fields r
                  ∧ F = padded results k f)
    ∧ (∀ F, F ∈ fields mp → length F = length (patches mp))
    ∧ (∀ k r f, results !! k = Some r → f ∈ fields r →
         length f = length (patches r)
         ∧ (∀ a, a < length (patches r) →
              padded results k f !! (offset results k + a) = f !! a)
         ∧ (∀ j, j < length (patches mp) →
              ¬ (offset results k ≤ j
                 < offset results k + length (patches r)) →
              padded results k f !! j = Some VNone))
    ∧ (∀ j rj F a, results !! j = Some rj → fields rj = [] →
         F ∈ fields mp → a < length (patches rj) →
         F !! (offset results j + a) = Some VNone).
Proof.
  intros Hc Nt Nm Hper Hall Haligned.
  destruct (create_built cf ksw ms kw w outer tilings microtiles pfs psfs rs
              Hc Nt Nm Hper Hall) as (w' & i & Hrun).
  destruct (objects_from_built (w_next w + length (patches outer)) rs Hall)
    as [Hbuilt Hids].
  set (results := objects_from (w_next w + length (patches outer)) rs) in *.
  assert (NoDup (mp_id <$> results)) as Hnd
    by (rewrite Hids; apply NoDup_seq).
  assert (∀ k r f, results !! k = Some r → f ∈ fields r →
            length f = length (patches r)) as Hlen.
  { intros k r f Hk Hin.
    destruct (Forall2_lookup_r _ _ _ _ _ Hbuilt Hk) as (r0 & Hr0 & ->).
    apply (Forall_lookup_1 _ _ _ _ Haligned) in Hr0. simpl in Hr0.
    by eapply Forall_forall in Hr0. }
  exists w', (mkMultipatch i (results ≫= patches) (combined_fields results)),
    results.
  cbn [patches fields]. split_and!; [done|done|apply bind_concat
                                    |apply length_combined_fields|..].
  - intros F. by apply elem_of_combined_fields.
  - intros F (k & r & f & Hk & Hin & ->)%elem_of_combined_fields; [|done].
    eapply length_padded; eauto.
  - intros k r f Hk Hin. split_and!; [by eauto| |].
    + intros a Ha. rewrite (lookup_padded_own _ _ _ _ _ Hk).
      apply lookup_app_l. by rewrite (Hlen k r f).
    + intros j Hj Hout. eapply lookup_padded_other; eauto.
  - intros j rj F a Hj Hnone
      (k & r & f & Hk & Hin & ->)%elem_of_combined_fields Ha; [|done].
    assert (k ≠ j) as Hne.
    { intros ->. rewrite Hj in Hk. injection Hk as <-.
      rewrite Hnone in Hin. by apply elem_of_nil in Hin. }
    pose proof (offset_S _ _ _ Hj) as Sj.
    pose proof (offset_S _ _ _ Hk) as Sk.
    pose proof (offset_total results (S j)) as Tj.
    eapply lookup_padded_other; eauto; [lia|].
    destruct (decide (j < k)) as [Hlt|Hge].
    + pose proof (offset_mono results (S j) k ltac:(lia)). lia.
    + pose proof (offset_mono results (S k) j ltac:(lia)). lia.
Qed.

End create_forward.

(** The per-patch outcomes of the two sample builds. *)
Lemma sample_outcomes :
  per_patch_outcomes Sample.SinglePatch_init Sample.SinglePatch_create []
    (mkMultipatch 0 [VSpline "a"; VSpline "b"] [])
    (VList [VInt 1; VInt 2]) Sample.tile VNone (VFunction "f")
    VNone VNone VNone
    [MultiPatch.Built [VSpline "a0"] [[VSpline "da"]];
     MultiPatch.Built [VSpline "b0"; VSpline "b1"]
       [[VSpline "db"; VSpline "db"]]].
Proof.
  split; [done|].
  intros [|[|k]] patch t m pf psf cf_k ksw_k ms_k H1 H2 H3 H4 H5 H6 H7 H8;
    vm_compute in H1, H2, H3, H4, H5, H6, H7, H8; simplify_eq;
    eexists; split; reflexivity.
Qed.

Lemma sample_outcomes_missing :
  per_patch_outcomes Sample.SinglePatch_init Sample.SinglePatch_create []
    (mkMultipatch 0 [VSpline "a"; VSpline "b"] [])
    (VList [VNone; VInt 2]) Sample.tile VNone VNone VNone VNone VNone
    [MultiPatch.NoResult;
     MultiPatch.Built [VSpline "b0"; VSpline "b1"] []].
Proof.
  split; [done|].
  intros [|[|k]] patch t m pf psf cf_k ksw_k ms_k H1 H2 H3 H4 H5 H6 H7 H8;
    vm_compute in H1, H2, H3, H4, H5, H6, H7, H8; simplify_eq;
    eexists; split; reflexivity.
Qed.

(** The same build with a sensitivity function for the first patch
    only. *)
Lemma sample_outcomes_one_sensitivity :
  per_patch_outcomes Sample.SinglePatch_init Sample.SinglePatch_create []
    (mkMultipatch 0 [VSpline "a"; VSpline "b"] [])
    (VList [VInt 1; VInt 2]) Sample.tile VNone
    (VList [VFunction "f"; VNone]) VNone VNone VNone
    [MultiPatch.Built [VSpline "a0"] [[VSpline "da"]];
     MultiPatch.Built [VSpline "b0"; VSpline "b1"] []].
Proof.
  split; [done|].
  intros [|[|k]] patch t m pf psf cf_k ksw_k ms_k H1 H2 H3 H4 H5 H6 H7 H8;
    vm_compute in H1, H2, H3, H4, H5, H6, H7, H8; simplify_eq;
    eexists; split; reflexivity.
Qed.

Lemma create_concatenates_patches_witness :
  ∃ w' mp,
    Sample.create VNone VNone VNone [] Sample.per_patch_world
    = (w', Return (VMultipatch mp))
    ∧ patches mp = [VSpline "a0"] ++ [VSpline "b0"; VSpline "b1"]
    ∧ length (patches mp) = 1 + 2.
Proof.
  destruct (create_concatenates_patches Sample.SinglePatch_init
              Sample.SinglePatch_create VNone VNone VNone []
              Sample.per_patch_world
              (mkMultipatch 0 [VSpline "a"; VSpline "b"] [])
              (VList [VInt 1; VInt 2]) Sample.tile VNone (VFunction "f")
              [MultiPatch.Built [VSpline "a0"] [[VSpline "da"]];
               MultiPatch.Built [VSpline "b0"; VSpline "b1"]
                 [[VSpline "db"; VSpline "db"]]])
    as (w' & mp & results & Hrun & Hbuilt & Hc & Hl & _).
  - vm_compute. by split_and!.
  - reflexivity.
  - reflexivity.
  - apply sample_outcomes.
  - repeat constructor; discriminate.
  - exists w', mp. split; [exact Hrun|].
    apply Forall2_cons_inv_l in Hbuilt as (r0 & rest & H0 & Hbuilt & ->).
    apply Forall2_cons_inv_l in Hbuilt as (r1 & rest' & H1 & Hbuilt & ->).
    apply Forall2_nil_inv_l in Hbuilt as ->.
    injection H0 as H0 _. injection H1 as H1 _.
    rewrite Hl, Hc. simpl. rewrite <- H0, <- H1. split; reflexivity.
Defined.

Lemma create_pads_sensitivity_fields_witness :
  ∃ w' mp,
    Sample.create VNone VNone VNone [] Sample.one_sensitivity_world
    = (w', Return (VMultipatch mp))
    ∧ patches mp = [VSpline "a0"; VSpline "b0"; VSpline "b1"]
    ∧ fields mp = [[VSpline "da"; VNone; VNone]]
    ∧ Forall (λ F, length F = length (patches mp)) (fields mp).
Proof.
  destruct (create_pads_sensitivity_fields Sample.SinglePatch_init
              Sample.SinglePatch_create VNone VNone VNone []
              Sample.one_sensitivity_world
              (mkMultipatch 0 [VSpline "a"; VSpline "b"] [])
              (VList [VInt 1; VInt 2]) Sample.tile VNone
              (VList [VFunction "f"; VNone])
              [MultiPatch.Built [VSpline "a0"] [[VSpline "da"]];
               MultiPatch.Built [VSpline "b0"; VSpline "b1"] []])
    as (w' & mp & results & Hrun & _ & _ & _ & _ & Hlen & _).
  - vm_compute. by split_and!.
  - reflexivity.
  - reflexivity.
  - apply sample_outcomes_one_sensitivity.
  - repeat constructor; discriminate.
  - repeat constructor.
  - exists w', mp. split; [exact Hrun|].
    split_and!; [| |apply Forall_forall; exact Hlen];
      vm_compute in Hrun; by injection Hrun as _ <-.
Defined.

Lemma create_returns_witness :
  ∃ w',
    Sample.create VNone VNone VNone [] Sample.per_patch_world
    = (w', Return (VMultipatch Sample.per_patch_microstructure))
    ∧ w_self w' !! "_microstructures"
      = Some (VList [VSinglePatch 1; VSinglePatch 2]).
Proof.
  destruct (create_returns Sample.SinglePatch_init Sample.SinglePatch_create
              VNone VNone VNone [] Sample.per_patch_world
              (mkMultipatch 0 [VSpline "a"; VSpline "b"] [])
              (VList [VInt 1; VInt 2]) Sample.tile VNone (VFunction "f")
              [MultiPatch.Built [VSpline "a0"] [[VSpline "da"]];
               MultiPatch.Built [VSpline "b0"; VSpline "b1"]
                 [[VSpline "db"; VSpline "db"]]])
    as (w' & Hrun & _ & Hs & _).
  - vm_compute. by split_and!.
  - reflexivity.
  - reflexivity.
  - apply sample_outcomes.
  - repeat constructor; discriminate.
  - exists w'. split; [exact Hrun|]. rewrite Hs. reflexivity.
Defined.

Lemma create_with_missing_result_witness :
  (Sample.create VNone VNone VNone [] Sample.missing_tiling_world).2
  = Raise (AttributeError "patches").
Proof.
  destruct (create_with_missing_result Sample.SinglePatch_init
              Sample.SinglePatch_create VNone VNone VNone []
              Sample.missing_tiling_world
              (mkMultipatch 0 [VSpline "a"; VSpline "b"] [])
              (VList [VNone; VInt 2]) Sample.tile VNone VNone
              [MultiPatch.NoResult;
               MultiPatch.Built [VSpline "b0"; VSpline "b1"] []])
    as (w' & Hrun & _).
  - vm_compute. by split_and!.
  - reflexivity.
  - reflexivity.
  - apply sample_outcomes_missing.
  - apply elem_of_cons. by left.
  - unfold Sample.create. by rewrite Hrun.
Defined.

Lemma create_without_patches_witness :
  (Sample.create VNone VNone VNone [] Sample.no_patches_world).2
  = Return (VMultipatch (mkMultipatch 1 [] [])).
Proof.
  destruct (create_without_patches Sample.SinglePatch_init
              Sample.SinglePatch_create VNone VNone VNone []
              Sample.no_patches_world Sample.no_patches (VInt 2) Sample.tile
              VNone VNone)
    as (w' & Hrun & _).
  - vm_compute. by split_and!.
  - reflexivity.
  - reflexivity.
  - reflexivity.
  - unfold Sample.create. by rewrite Hrun.
Defined.

(** ** What [create] reads, keeps and refuses *)

#[local] Instance log_grows_preorder : PreOrder log_grows.
Proof.
  split.
  - intros w. unfold log_grows. done.
  - intros w1 w2 w3. unfold log_grows. by etrans.
Qed.

Section create_edges.

Import MultiPatch.

Variable SinglePatch_init :
  value → value → value → value → result (gmap string value).
Variable SinglePatch_create :
  gmap string value → value → value → value → list (string * value) →
  gmap string value * result single_patch_result.

Abbreviation create_e := (create SinglePatch_init SinglePatch_create).

Lemma create_log_grows cf ksw ms kw : preserves log_grows (create_e cf ksw ms kw).
Proof.
  apply preserves_create; try apply _; intros;
    intros w0 w0' r0; unfold getattr_self, log, setattr_self, new_id;
    intros [= <- _]; unfold log_grows; simpl; try done;
    by apply prefix_app_r.
Qed.

(** X11.  Whether it returns or raises, [create] assigns no attribute of
    the builder other than [_microstructures], never takes back an object
    identity, and only appends to the log. *)
Theorem create_footprint
    (cf ksw ms : value) (kw : list (string * value)) (w w' : world)
    (r : result value) :
  create_e cf ksw ms kw w = (w', r) →
  (∀ name, name ≠ "_microstructures" → w_self w' !! name = w_self w !! name)
  ∧ w_next w ≤ w_next w'
  ∧ w_log w `prefix_of` w_log w'.
Proof.
  intros Hrun. split_and!.
  - intros name Hne.
    by apply (create_keeps_attribute SinglePatch_init SinglePatch_create name
                cf ksw ms kw Hne _ _ _ Hrun).
  - by apply (create_next_le SinglePatch_init SinglePatch_create cf ksw ms kw
                _ _ _ Hrun).
  - by apply (create_log_grows cf ksw ms kw _ _ _ Hrun).
Qed.

(** X12.  When the three required attributes exist and one of them is
    [None] -- assigned so -- [create] logs the one informational message and
    returns [None]: no builder is constructed, no identity is taken, and the
    builder is left as it was. *)
Theorem create_awaits_configuration
    (cf ksw ms : value) (kw : list (string * value)) (w : world)
    (df tilings microtiles : value) :
  w_self w !! "_deformation_functions" = Some df →
  w_self w !! "_tilings" = Some tilings →
  w_self w !! "_microtiles" = Some microtiles →
  Py.is_None df || Py.is_None tilings || Py.is_None microtiles = true →
  create_e cf ksw ms kw w
  = (World (w_self w) (w_heap w) (w_next w)
       (w_log w ++ [(LvInfo,
          "Current information not sufficient, awaiting further assignments!")]),
     Return VNone).
Proof.
  intros E1 E2 E3 H. unfold create, bind, getattr_self, Py.getattr.
  by rewrite E1, E2, E3, H.
Qed.

(** X13.  With the three required attributes assigned, an outer
    [Multipatch] included, [create] still raises an [AttributeError] when
    [parametrization_functions] or [parameter_sensitivity_functions] was
    never assigned -- the constructor leaves both unset by default --, and
    it does so before it logs or constructs anything. *)
Theorem create_needs_optional_attributes
    (cf ksw ms : value) (kw : list (string * value)) (w : world)
    (outer : Multipatch value) (tilings microtiles : value) :
  w_self w !! "_deformation_functions" = Some (VMultipatch outer) →
  w_self w !! "_tilings" = Some tilings →
  w_self w !! "_microtiles" = Some microtiles →
  Py.is_None tilings = false → Py.is_None microtiles = false →
  w_self w !! "_parametrization_functions" = None
  ∨ w_self w !! "_parameter_sensitivity_functions" = None →
  create_e cf ksw ms kw w
  = (w, Raise (AttributeError
                 (if bool_decide
                       (w_self w !! "_parametrization_functions" = None)
                  then "_parametrization_functions"
                  else "_parameter_sensitivity_functions"))).
Proof.
  intros Hdf Ht Hm Nt Nm Hmissing.
  unfold create, create_patches, bind, getattr_self, Py.getattr, lift.
  rewrite Hdf, Ht, Hm, Nt, Nm. simpl.
  destruct (w_self w !! "_parametrization_functions") as [pfs|] eqn:E1.
  - destruct Hmissing as [?| ->]; [done|].
    by rewrite bool_decide_eq_false_2.
  - by rewrite bool_decide_eq_true_2.
Qed.

End create_edges.

Lemma create_footprint_witness :
  w_self (Sample.create VNone VNone VNone [] Sample.per_patch_world).1
    !! "_tilings"
  = Some (VList [VInt 1; VInt 2])
  ∧ 1 ≤ w_next (Sample.create VNone VNone VNone [] Sample.per_patch_world).1.
Proof.
  destruct (create_footprint Sample.SinglePatch_init Sample.SinglePatch_create
              VNone VNone VNone [] Sample.per_patch_world
              (Sample.create VNone VNone VNone [] Sample.per_patch_world).1
              (Sample.create VNone VNone VNone [] Sample.per_patch_world).2)
    as (Hs & Hn & _).
  - apply surjective_pairing.
  - split; [|exact Hn]. rewrite Hs by done. reflexivity.
Defined.

Lemma create_awaits_configuration_witness :
  Sample.create VNone VNone VNone [] Sample.tilings_None_world
  = (World (w_self Sample.tilings_None_world) ∅ 1
       [(LvInfo,
         "Current information not sufficient, awaiting further assignments!")],
     Return VNone).
Proof.
  apply (create_awaits_configuration Sample.SinglePatch_init
           Sample.SinglePatch_create VNone VNone VNone []
           Sample.tilings_None_world Sample.two_patches VNone Sample.tile);
    reflexivity.
Defined.

Lemma create_needs_optional_attributes_witness :
  Sample.create VNone VNone VNone [] Sample.required_only_world
  = (Sample.required_only_world,
     Raise (AttributeError "_parametrization_functions")).
Proof.
  apply (create_needs_optional_attributes Sample.SinglePatch_init
           Sample.SinglePatch_create VNone VNone VNone []
           Sample.required_only_world
           (mkMultipatch 0 [VSpline "a"; VSpline "b"] []) (VInt 2)
           Sample.tile); try reflexivity.
  left. reflexivity.
Defined.

(** * Further properties of the facade *)

Section facade_more.

Import Microstructure.

Variable SinglePatch_init :
  value → value → value → value → result (gmap string value).
Variable format_value : value → string.

(** The attribute a property number stands for on this facade. *)
Lemma get_property_name_lt self number :
  number < 5 →
  ∃ base, property_names !! number = Some base
          ∧ _get_property_name self number
            = Return ("_" +:+ base
                      +:+ (if _is_single_patch self then "" else "s")).
Proof.
  intros Hlt. unfold _get_property_name.
  destruct (lookup_lt_is_Some_2 property_names number) as [base Hb]; [done|].
  exists base. by rewrite Hb.
Qed.

Lemma property_attributes_distinct (single : bool) n n' base base' :
  n ≠ n' → property_names !! n = Some base →
  property_names !! n' = Some base' →
  "_" +:+ base +:+ (if single then "" else "s")
  ≠ "_" +:+ base' +:+ (if single then "" else "s").
Proof.
  intros Hne Hn Hn'.
  destruct n as [|[|[|[|[|n]]]]]; try done;
    destruct n' as [|[|[|[|[|n']]]]]; try done;
    injection Hn as <-; injection Hn' as <-; by destruct single.
Qed.

Lemma get_property_eq self number message base :
  property_names !! number = Some base →
  _get_property self number message
  = (if Py.hasattr (d_dict (_microstructure self))
          ("_" +:+ base +:+ (if _is_single_patch self then "" else "s"))
     then []
     else match message with Some m => [(LvInfo, m)] | None => [] end,
     Return (Py.getattr_default (d_dict (_microstructure self))
               ("_" +:+ base
                +:+ (if _is_single_patch self then "" else "s")))).
Proof.
  intros Hn. unfold _get_property, _get_property_name. rewrite Hn.
  unfold Py.hasattr, Py.getattr, Py.getattr_default.
  destruct (d_dict (_microstructure self) !! _) eqn:E.
  - by rewrite bool_decide_eq_true_2 by eauto.
  - by rewrite bool_decide_eq_false_2 by apply is_Some_None.
Qed.


(** X15.  A property assigned through the facade is written to the builder
    without any check and never raises; it reads back as assigned, the
    other properties, the builder class and the single-patch flag are
    unchanged. *)
Theorem facade_set_property_round_trip
    (self : facade) (number : nat) (v : value) (message : option string) :
  number < 5 →
  ∃ self',
    _set_property self number v message
    = (self', match message with Some m => [(LvDebug, m)] | None => [] end,
       Return tt)
    ∧ _is_single_patch self' = _is_single_patch self
    ∧ d_class (_microstructure self') = d_class (_microstructure self)
    ∧ _get_property self' number None = ([], Return v)
    ∧ ∀ n msg, n ≠ number → n < 5 →
        _get_property self' n msg = _get_property self n msg.
Proof.
  intros Hlt.
  destruct (get_property_name_lt self number Hlt) as (base & Hb & Hname).
  unfold _set_property. rewrite Hname. eexists. split; [done|].
  split_and!; try done.
  - rewrite (get_property_eq _ _ _ _ Hb). simpl.
    unfold Py.hasattr, Py.getattr_default. rewrite lookup_insert_eq.
    by rewrite bool_decide_eq_true_2 by eauto.
  - intros n msg Hne Hn.
    destruct (get_property_name_lt self n Hn) as (base' & Hb' & _).
    rewrite !(get_property_eq _ _ _ _ Hb'). simpl.
    unfold Py.hasattr, Py.getattr_default.
    rewrite lookup_insert_ne; [done|].
    by apply (property_attributes_distinct _ number n).
Qed.

Lemma set_tiling_logs_previous_value_aux (self : facade) (v : value) :
  ∃ self1 log,
    set_tiling format_value self v = (self1, log, Return tt)
    ∧ (tiling self1).2 = Return v
    ∧ _is_single_patch self1 = _is_single_patch self
    ∧ d_dict (_microstructure self1)
      = <["_" +:+ "tiling" +:+ (if _is_single_patch self then "" else "s")
          := v]> (d_dict (_microstructure self)).
Proof.
  unfold set_tiling, tiling.
  rewrite (get_property_eq _ 1 None "tiling") by done.
  cbn [snd]. unfold _set_property, _get_property_name.
  change (property_names !! 1) with (Some "tiling").
  eexists _, _. split; [done|]. split_and!; try done.
  rewrite (get_property_eq _ 1 None "tiling") by done.
  cbn [snd _microstructure d_dict _is_single_patch].
  unfold Py.getattr_default. by rewrite lookup_insert_eq.
Qed.

(** X16.  The debug message of the [tiling] setter is formatted before the
    assignment: it reports the tiling the facade had, not the one being
    set. *)
Theorem set_tiling_logs_previous_value (self : facade) (v : value) :
  ∃ old self',
    (tiling self).2 = Return old
    ∧ set_tiling format_value self v
      = (self',
         [(LvDebug, "Successfully set tiling to : " +:+ format_value old)],
         Return tt)
    ∧ (tiling self').2 = Return v.
Proof.
  unfold set_tiling, tiling.
  rewrite (get_property_eq _ 1 None "tiling") by done.
  cbn [snd]. unfold _set_property, _get_property_name.
  change (property_names !! 1) with (Some "tiling").
  eexists _, _. split; [done|]. split; [done|].
  rewrite (get_property_eq _ 1 None "tiling") by done.
  cbn [snd _microstructure d_dict _is_single_patch].
  unfold Py.getattr_default. by rewrite lookup_insert_eq.
Qed.

(** X17.  The constructor of the facade chooses the builder from the
    deformation function alone -- single-patch for a spline, multi-patch for
    anything else, [None] included -- and a facade over a multi-patch
    builder reads back the four arguments it was constructed from, with no
    parameter sensitivity function. *)
Theorem new_facade_round_trip
    (df t m p : value) (self : facade) :
  new SinglePatch_init df t m p = Return self →
  _is_single_patch self = Py.instance_of df cls_PySpline
  ∧ d_class (_microstructure self)
    = (if Py.instance_of df cls_PySpline then _MicrostructureSinglePatch
       else _MicrostructureMultiPatch)
  ∧ (Py.instance_of df cls_PySpline = false →
     (deformation_function self).2 = Return df
     ∧ (tiling self).2 = Return t
     ∧ (microtile self).2 = Return m
     ∧ (parametrization_function self).2 = Return p
     ∧ (parameter_sensitivity_function self).2 = Return VNone).
Proof.
  unfold new, new_delegate.
  destruct (Py.instance_of df cls_PySpline) eqn:E.
  - destruct (SinglePatch_init df t m p); [done|]. intros [= <-]. done.
  - destruct (MultiPatch.__init__ df t m p) as [|d] eqn:Hd; [done|].
    intros [= <-]. split_and!; try done. intros _.
    apply multi_patch_init_Return in Hd as (H0 & H1 & H2 & H3 & H4).
    unfold deformation_function, tiling, microtile, parametrization_function,
      parameter_sensitivity_function.
    rewrite (get_property_eq _ 0 None "deformation_function") by done.
    rewrite (get_property_eq _ 1 None "tiling") by done.
    rewrite (get_property_eq _ 2 (Some _) "microtile") by done.
    rewrite (get_property_eq _ 3 None "parametrization_function") by done.
    rewrite (get_property_eq _ 4 None "parameter_sensitivity_function")
      by done.
    cbn [snd _microstructure d_dict _is_single_patch].
    split_and!; try (by f_equal).
    change ("_" +:+ "parameter_sensitivity_function" +:+ "s")
      with "_parameter_sensitivity_functions".
    unfold Py.getattr_default. by rewrite H4.
Qed.

(** X18.  When the assignment of a deformation function raises, the old
    builder stays, but the single-patch flag has already been set from the
    rejected value. *)
Theorem set_deformation_function_failure
    (self self' : facade) (df : value) (e : exn) :
  set_deformation_function SinglePatch_init self df = (self', Raise e) →
  _microstructure self' = _microstructure self
  ∧ _is_single_patch self' = Py.instance_of df cls_PySpline.
Proof.
  unfold set_deformation_function.
  rewrite (get_property_eq _ 1 None "tiling") by done.
  rewrite (get_property_eq _ 2 None "microtile") by done.
  rewrite (get_property_eq _ 3 None "parametrization_function") by done.
  cbn [snd]. unfold __init__.
  destruct (new_delegate _ _ _ _ _ _) as [e'|d]; [|done].
  by intros [= <- _].
Qed.

(** X19.  On a facade over a multi-patch builder, a tiling the builder's
    own setter would reject is accepted by the facade and read back; it is
    only rejected, with the [ValueError] about the tilings, when a
    deformation function is next assigned, and the facade then stays as it
    was. *)
Theorem facade_defers_tiling_check (self : facade) (v df : value) :
  _is_single_patch self = false →
  Py.is_None v || Py.instance_of v cls_int || Py.instance_of v cls_list
  = false →
  Py.is_None df || Py.instance_of df cls_Multipatch = true →
  ∃ self1 log,
    set_tiling format_value self v = (self1, log, Return tt)
    ∧ (tiling self1).2 = Return v
    ∧ (∃ msg, MultiPatch.set_tilings (d_dict (_microstructure self)) v
              = Raise (ValueError msg))
    ∧ set_deformation_function SinglePatch_init self1 df
      = (self1,
         Raise (ValueError
           ("Argument tilings must be None or an instance of "
            +:+ "(<class 'int'>, <class 'list'>)!"))).
Proof.
  intros Hmulti Hv Hdf.
  destruct (set_tiling_logs_previous_value_aux self v)
    as (self1 & log & Hset & Hget & Hflag & Hdict).
  exists self1, log. split_and!; try done.
  - rewrite set_tilings_eq, Hv. eauto.
  - unfold set_deformation_function.
    rewrite (get_property_eq _ 1 None "tiling") by done.
    rewrite (get_property_eq _ 2 None "microtile") by done.
    rewrite (get_property_eq _ 3 None "parametrization_function") by done.
    cbn [snd]. rewrite Hmulti in Hdict, Hflag. rewrite Hflag, Hdict.
    unfold Py.getattr_default.
    rewrite lookup_insert_eq, !lookup_insert_ne by done. cbn [default].
    unfold __init__, new_delegate.
    assert (Py.instance_of df cls_PySpline = false) as ->
      by (destruct df; done).
    rewrite init_cases. unfold id. rewrite Hdf, Hv. cbn [negb].
    rewrite <- Hflag. by destruct self1.
Qed.

End facade_more.

Lemma facade_set_property_round_trip_witness :
  ∃ self',
    Microstructure._set_property Sample.facade_with_sensitivity 1 (VStr "abc")
      None = (self', [], Return tt)
    ∧ Microstructure._get_property self' 1 None = ([], Return (VStr "abc")).
Proof.
  destruct (facade_set_property_round_trip Sample.facade_with_sensitivity 1
              (VStr "abc") None) as (self' & H1 & _ & _ & H2 & _).
  - lia.
  - exists self'. split; [exact H1|exact H2].
Defined.

Lemma new_facade_round_trip_witness :
  (Microstructure.tiling
     (Microstructure.Facade false
        (Microstructure.Delegate Microstructure._MicrostructureMultiPatch
           (<["_microtiles" := Sample.tile]>
            (<["_tilings" := VInt 2]>
             (<["_deformation_functions" := Sample.two_patches]> ∅)))))).2
  = Return (VInt 2).
Proof.
  destruct (new_facade_round_trip Sample.SinglePatch_init Sample.two_patches
              (VInt 2) Sample.tile VNone
              (Microstructure.Facade false
                 (Microstructure.Delegate
                    Microstructure._MicrostructureMultiPatch
                    (<["_microtiles" := Sample.tile]>
                     (<["_tilings" := VInt 2]>
                      (<["_deformation_functions" := Sample.two_patches]>
                       ∅))))))
    as (_ & _ & H).
  - reflexivity.
  - destruct H as (_ & H & _); [reflexivity|exact H].
Defined.

Lemma set_deformation_function_failure_witness :
  (Microstructure.tiling Sample.single_patch_facade).2 = Return (VInt 2)
  ∧ Microstructure._is_single_patch
      (Microstructure.set_deformation_function Sample.SinglePatch_init
         Sample.single_patch_facade (VInt 5)).1 = false
  ∧ Microstructure._microstructure
      (Microstructure.set_deformation_function Sample.SinglePatch_init
         Sample.single_patch_facade (VInt 5)).1
    = Microstructure._microstructure Sample.single_patch_facade
  ∧ (Microstructure.tiling
       (Microstructure.set_deformation_function Sample.SinglePatch_init
          Sample.single_patch_facade (VInt 5)).1).2 = Return VNone.
Proof.
  destruct (set_deformation_function_failure Sample.SinglePatch_init
              Sample.single_patch_facade
              (Microstructure.set_deformation_function Sample.SinglePatch_init
                 Sample.single_patch_facade (VInt 5)).1
              (VInt 5)
              (ValueError
                 ("Argument deformation_functions must be None or an "
                  +:+ "instance of <class 'splinepy.multipatch.Multipatch'>!")))
    as (H1 & H2).
  - vm_compute. reflexivity.
  - split_and!; [vm_compute; reflexivity|exact H2|exact H1
                |vm_compute; reflexivity].
Defined.

Lemma facade_defers_tiling_check_witness :
  ∃ self1 log,
    Microstructure.set_tiling Sample.format_value
      Sample.facade_with_sensitivity (VStr "abc") = (self1, log, Return tt)
    ∧ (Microstructure.set_deformation_function Sample.SinglePatch_init self1
         Sample.three_patches).2
      = Raise (ValueError
          ("Argument tilings must be None or an instance of "
           +:+ "(<class 'int'>, <class 'list'>)!")).
Proof.
  destruct (facade_defers_tiling_check Sample.SinglePatch_init
              Sample.format_value Sample.facade_with_sensitivity (VStr "abc")
              Sample.three_patches) as (self1 & log & H1 & _ & _ & H2).
  - reflexivity.
  - reflexivity.
  - reflexivity.
  - exists self1, log. split; [exact H1|]. by rewrite H2.
Defined.

(** ** An exception of a single-patch constructor *)

Section constructor_error.

Import MultiPatch.

Variable SinglePatch_init :
  value → value → value → value → result (gmap string value).
Variable SinglePatch_create :
  gmap string value → value → value → value → list (string * value) →
  gmap string value * result single_patch_result.

Lemma mapM_new_single_patch_raises args w k arg e :
  args !! k = Some arg →
  init_of SinglePatch_init arg = Raise e →
  (∀ j a, j < k → args !! j = Some a →
     ∃ d, init_of SinglePatch_init a = Return d) →
  ∃ w1,
    mapM (new_single_patch SinglePatch_init) args w = (w1, Raise e)
    ∧ w_self w1 = w_self w ∧ w_log w1 = w_log w.
Proof.
  revert w k. induction args as [|a args IH]; intros w k Hk He Hbefore.
  - done.
  - destruct k as [|k]; simpl in Hk.
    + injection Hk as ->. exists w. split; [|done]. simpl.
      apply bind_run_Raise.
      destruct arg as (patch & tiling & microtile & pf).
      unfold init_of in He. simpl in He.
      unfold new_single_patch, bind, lift. by rewrite He.
    + destruct (Hbefore 0 a) as [d Hd]; [lia|done|].
      set (wa := World (w_self w) (<[w_next w := d]> (w_heap w))
                   (S (w_next w)) (w_log w)).
      destruct (IH wa k Hk He) as (w1 & Hrun & Hs & Hg).
      { intros j a' Hj Ha'. apply (Hbefore (S j)); [lia|done]. }
      exists w1. split; [|done]. simpl.
      assert (new_single_patch SinglePatch_init a w = (wa, Return (w_next w)))
        as Hnew.
      { destruct a as (patch & tiling & microtile & pf).
        unfold init_of in Hd. simpl in Hd.
        unfold new_single_patch, bind, lift, new_id. simpl. by rewrite Hd. }
      rewrite (bind_run _ _ _ _ _ Hnew). by apply bind_run_Raise.
Qed.

(** X20.  The builders are constructed inside [create]: when the
    constructor for patch [k] raises and those before it do not, [create]
    raises that exception.  By then the diagnostics for [tilings] and
    [microtiles] are logged and nothing else is; no attribute of the
    builder is assigned, [_microstructures] included. *)
Theorem create_constructor_error
    (cf ksw ms : value) (kw : list (string * value)) (w : world)
    (outer : Multipatch value) (tilings microtiles pfs psfs : value)
    (k : nat) (patch t m pf : value) (e : exn) :
  configuration_of w outer tilings microtiles pfs psfs →
  Py.is_None tilings = false → Py.is_None microtiles = false →
  patches outer !! k = Some patch →
  CheckForListAndCreateOtherwise (length (patches outer)) tilings !! k
  = Some t →
  CheckForListAndCreateOtherwise (length (patches outer)) microtiles !! k
  = Some m →
  CheckForListAndCreateOtherwise (length (patches outer)) pfs !! k = Some pf →
  SinglePatch_init patch t m pf = Raise e →
  (∀ j patch' t' m' pf',
     j < k → patches outer !! j = Some patch' →
     CheckForListAndCreateOtherwise (length (patches outer)) tilings !! j
     = Some t' →
     CheckForListAndCreateOtherwise (length (patches outer)) microtiles !! j
     = Some m' →
     CheckForListAndCreateOtherwise (length (patches outer)) pfs !! j
     = Some pf' →
     ∃ d, SinglePatch_init patch' t' m' pf' = Return d) →
  ∃ w',
    create SinglePatch_init SinglePatch_create cf ksw ms kw w = (w', Raise e)
    ∧ w_self w' = w_self w
    ∧ w_log w'
      = w_log w ++ diagnostics (length (patches outer)) tilings "tiling"
        ++ diagnostics (length (patches outer)) microtiles "microtile".
Proof.
  intros (Hdf & Ht & Hm & Hpfs & Hpsfs) Nt Nm Hk1 Hk2 Hk3 Hk4 He Hbefore.
  unfold create.
  erewrite (bind_run (getattr_self _));
    [|unfold getattr_self, Py.getattr; by rewrite Hdf].
  erewrite (bind_run (getattr_self _));
    [|unfold getattr_self, Py.getattr; by rewrite Ht].
  erewrite (bind_run (getattr_self _));
    [|unfold getattr_self, Py.getattr; by rewrite Hm].
  rewrite Nt, Nm. cbn [Py.is_None orb].
  unfold create_patches.
  set (N := length (patches outer)) in *.
  match goal with
  | |- ∃ w', bind ?m _ _ = _ ∧ _ =>
      assert (∃ w', m w = (w', Raise e) ∧ w_self w' = w_self w
                    ∧ w_log w' = w_log w ++ diagnostics N tilings "tiling"
                                 ++ diagnostics N microtiles "microtile")
        as (w' & Hrun & Hs & Hg)
  end.
  2:{ exists w'. split; [|done]. by apply bind_run_Raise. }
  erewrite (bind_run (lift _)); [|reflexivity].
  erewrite (bind_run (getattr_self _));
    [|unfold getattr_self, Py.getattr; by rewrite Hpfs].
  erewrite (bind_run (getattr_self _));
    [|unfold getattr_self, Py.getattr; by rewrite Hpsfs].
  rewrite (bind_run _ _ _ _ _ (CheckForAmbiguity_run N tilings "tiling" w)).
  rewrite (bind_run _ _ _ _ _ (CheckForAmbiguity_run N microtiles "microtile" _)).
  cbn [w_self w_heap w_next w_log].
  match goal with
  | |- ∃ w', bind (mapM _ ?args) _ ?wa = _ ∧ _ =>
      destruct (mapM_new_single_patch_raises args wa k (patch, (t, (m, pf))) e)
        as (w1 & Hrun & Hs & Hg)
  end.
  - by apply lookup_zip3.
  - done.
  - intros j (patch' & t' & m' & pf') Hj Ha.
    apply lookup_zip3_inv in Ha as (H1 & H2 & H3 & H4).
    unfold init_of. simpl. by eapply (Hbefore j).
  - exists w1. split; [by apply bind_run_Raise|].
    split; [done|]. rewrite Hg. simpl. by rewrite <- app_assoc.
Qed.

End constructor_error.

Lemma create_constructor_error_witness :
  (MultiPatch.create Sample.SinglePatch_init_checked Sample.SinglePatch_create
     VNone VNone VNone [] Sample.bad_tiling_world).2
  = Raise (ValueError "tiling must be an int").
Proof.
  destruct (create_constructor_error Sample.SinglePatch_init_checked
              Sample.SinglePatch_create VNone VNone VNone []
              Sample.bad_tiling_world
              (mkMultipatch 0 [VSpline "a"; VSpline "b"] [])
              (VList [VInt 1; VStr "two"]) Sample.tile VNone VNone
              1 (VSpline "b") (VStr "two") Sample.tile VNone
              (ValueError "tiling must be an int"))
    as (w' & Hrun & _).
  - vm_compute. by split_and!.
  - reflexivity.
  - reflexivity.
  - reflexivity.
  - reflexivity.
  - reflexivity.
  - reflexivity.
  - reflexivity.
  - intros [|j] patch' t' m' pf' Hj H1 H2 H3 H4; [|lia].
    vm_compute in H1, H2, H3, H4. simplify_eq. by eexists.
  - by rewrite Hrun.
Defined.
